(** * WhatsApp AI agent: session registry, command router, AI relay, prompt store

    A shallow embedding of [src/sessionManager.js], [src/promptManager.js]
    and the AI handler (second half of [src/app.js]).

    Conventions.
    - A JavaScript string is a [string]: a sequence of code units below 256.
    - A JavaScript [Map] keyed by strings is a [gmap string _].
    - A JavaScript object whose keys may be missing is a record of [option]
      fields; a key holding [null] is [Some None].
    - Every call on an external collaborator (file system, transport client,
      generative model) takes its outcome from an explicit environment, and
      the calls made on the transport are returned as a trace of [action]s.
    - [Date.now()] is an explicit argument. *)

From Stdlib Require Import ZArith Ascii String List Bool Lia.
From stdpp Require Import base option list gmap strings.

Local Open Scope string_scope.
Local Open Scope list_scope.
Local Open Scope Z_scope.

(** ** JavaScript string primitives used by the sources *)

Module Js.

(** [\d] *)
Definition isDigit (c : ascii) : bool :=
  let n := nat_of_ascii c in (48 <=? n)%nat && (n <=? 57)%nat.

(** [s.replace(/\D/g, '')] *)
Fixpoint digitsOnly (s : string) : string :=
  match s with
  | EmptyString => EmptyString
  | String c r => if isDigit c then String c (digitsOnly r) else digitsOnly r
  end.

(** White space removed by [String.prototype.trim], below code unit 256. *)
Definition isSpace (c : ascii) : bool :=
  let n := nat_of_ascii c in
  ((9 <=? n)%nat && (n <=? 13)%nat) || (n =? 32)%nat || (n =? 160)%nat.

Fixpoint trimStart (s : string) : string :=
  match s with
  | EmptyString => EmptyString
  | String c r => if isSpace c then trimStart r else s
  end.

(** Drops the white space that ends [s]. *)
Fixpoint trimEnd (s : string) : string :=
  match s with
  | EmptyString => EmptyString
  | String c r =>
      match trimEnd r with
      | EmptyString => if isSpace c then EmptyString else String c EmptyString
      | r' => String c r'
      end
  end.

(** [s.trim()] *)
Definition trim (s : string) : string := trimEnd (trimStart s).

(** [s.startsWith('.')] *)
Definition startsWithDot (s : string) : bool :=
  match s with
  | String "."%char _ => true
  | _ => false
  end.

(** [s.slice(1)] *)
Definition slice1 (s : string) : string :=
  match s with
  | EmptyString => EmptyString
  | String _ r => r
  end.

(** [s.split(sep)] for a one-character separator: never the empty list. *)
Fixpoint split (sep : ascii) (s : string) : list string :=
  match s with
  | EmptyString => [EmptyString]
  | String c r =>
      if Ascii.eqb c sep then EmptyString :: split sep r
      else match split sep r with
           | [] => [String c EmptyString]
           | w :: ws => String c w :: ws
           end
  end.

(** [parts.join(' ')] *)
Fixpoint join (parts : list string) : string :=
  match parts with
  | [] => EmptyString
  | [p] => p
  | p :: ps => p +:+ " " +:+ join ps
  end.

(** Truthiness of a string: non-empty. *)
Definition truthy (s : string) : bool :=
  match s with
  | EmptyString => false
  | _ => true
  end.

(** The double quote, for the texts that hold one. *)
Definition dquote : string := String "034"%char EmptyString.

(** [s.startsWith(p)] and, when it holds, the rest of [s]. *)
Fixpoint stripPrefix (p s : string) : option string :=
  match p, s with
  | EmptyString, _ => Some s
  | String a p', String b s' =>
      if Ascii.eqb a b then stripPrefix p' s' else None
  | String _ _, EmptyString => None
  end.

End Js.

(** A value returned, or an [Error] thrown with its message. *)
Inductive outcome (A : Type) : Type :=
  | Ok (a : A)
  | Throw (message : string).
Arguments Ok {A} a.
Arguments Throw {A} message.

(** ** Prompt manager ([src/promptManager.js]) *)

Module PromptManager.

(** A prompt: [{ systemPrompt }]. The values kept in [customPrompts] and in
    [defaultPrompt] are objects of this shape: [setPrompt] builds them, and
    the prompt files are written by [setPrompt] and [ensurePromptFiles]. *)
Record promptData : Type := PromptData { systemPrompt : string }.

#[export] Instance promptData_eq_dec : EqDecision promptData.
Proof. solve_decision. Defined.

(** The module-level state: the [customPrompts] map and [defaultPrompt]
    ([None] is [null], its value until [loadDefaultPrompt] has run). *)
Record store : Type := Store {
  customPrompts : gmap string promptData;
  defaultPrompt : option promptData
}.

(** What a route handler answers: [res.status(code).json(...)]; [ResNone]
    when the handler is called without [res] and never uses it. *)
Inductive response : Type :=
  | Res (code : nat) (message : string) (prompt : option promptData)
  | ResNone.

Definition code_of (r : response) : option nat :=
  match r with
  | Res code _ _ => Some code
  | ResNone => None
  end.

(** [getPromptByMobile]: [customPrompts.get(mobileNumber) || defaultPrompt],
    throwing when both are missing. *)
Definition getPromptByMobile (st : store) (mobile : string)
  : outcome promptData :=
  let mobileNumber := Js.digitsOnly mobile in
  match customPrompts st !! mobileNumber with
  | Some prompt => Ok prompt
  | None =>
      match defaultPrompt st with
      | Some prompt => Ok prompt
      | None => Throw "Prompt not found."
      end
  end.

(** [getPrompt], the GET route. *)
Definition getPrompt (st : store) (mobile : string) : response :=
  match getPromptByMobile st mobile with
  | Ok prompt => Res 200 EmptyString (Some prompt)
  | Throw message => Res 404 message None
  end.

(** [setPrompt(req, res)] with [req.params.mobile = mobile] and
    [req.body.systemPrompt = text]. [writeOk] is the outcome of
    [fs.writeJson]; [hasRes] tells whether [res] was passed (the command
    router passes none). Without [res] the missing-prompt branch throws a
    [TypeError] on [res.status]. *)
Definition setPrompt (writeOk hasRes : bool) (mobile text : string)
    (st : store) : outcome (store * response) :=
  let mobileNumber := Js.digitsOnly mobile in
  if negb (Js.truthy text) then
    if hasRes
    then Ok (st, Res 400 ("Missing " +:+ Js.dquote +:+ "systemPrompt"
                          +:+ Js.dquote +:+ " in request body.") None)
    else Throw "Cannot read properties of undefined (reading 'status')"
  else
    let promptData := PromptData text in
    if writeOk then
      let st' := Store (<[mobileNumber := promptData]> (customPrompts st))
                       (defaultPrompt st) in
      Ok (st', if hasRes
               then Res 200 ("Prompt updated for " +:+ mobileNumber)
                            (Some promptData)
               else ResNone)
    else
      Ok (st, if hasRes then Res 500 "Failed to set prompt" None else ResNone).

(** [deletePrompt(req, res)]; [removeOk] is the outcome of [fs.remove]. *)
Definition deletePrompt (removeOk : bool) (mobile : string) (st : store)
  : store * response :=
  let mobileNumber := Js.digitsOnly mobile in
  match customPrompts st !! mobileNumber with
  | Some _ =>
      if removeOk then
        (Store (delete mobileNumber (customPrompts st)) (defaultPrompt st),
         Res 200 ("Custom prompt removed for " +:+ mobileNumber
                  +:+ ". Reverted to default.") None)
      else (st, Res 500 "Failed to delete prompt" None)
  | None => (st, Res 404 "No custom prompt found for this mobile number." None)
  end.

End PromptManager.

(** ** AI handler: per-identity conversation history and the AI relay
    (the [aiHandler.js] part of [src/app.js]) *)

Module AiHandler.

(** One entry of a history: [{ role, parts: [{ text }] }]. *)
Record turn : Type := Turn { role : string; text : string }.

#[export] Instance turn_eq_dec : EqDecision turn.
Proof. solve_decision. Defined.

(** Content of [histories/<mobile>.json]: a history, or something
    [fs.readJson] fails on. *)
Inductive histFile : Type :=
  | HistJson (history : list turn)
  | HistCorrupt.

(** [handler.getHistory]: the file's history; [[]] when the file is missing
    or reading it fails. *)
Definition getHistory (files : gmap string histFile) (mobile : string)
  : list turn :=
  match files !! mobile with
  | Some (HistJson history) => history
  | Some HistCorrupt => []
  | None => []
  end.

(** The duplicate test on [history[history.length - 1]]. *)
Definition isDuplicate (history : list turn) (r content : string) : bool :=
  match last history with
  | Some lastMessage =>
      bool_decide (role lastMessage = r)
      && bool_decide (text lastMessage = content)
  | None => false
  end.

(** [handler.addMessageToHistory]; [writeOk] is the outcome of
    [fs.writeJson], whose failure is logged and swallowed. *)
Definition addMessageToHistory (writeOk : bool)
    (files : gmap string histFile) (mobile r content : string)
  : gmap string histFile :=
  let history := getHistory files mobile in
  if isDuplicate history r content then files
  else
    let history' := history ++ [Turn r content] in
    if writeOk then <[mobile := HistJson history']> files else files.

(** [handler.clearHistory]; [removeOk] is the outcome of [fs.remove]. *)
Definition clearHistory (removeOk : bool)
    (files : gmap string histFile) (mobile : string)
  : gmap string histFile :=
  match files !! mobile with
  | Some _ => if removeOk then delete mobile files else files
  | None => files
  end.

(** The collaborators of one [generateAIResponse] call. *)
Record aiEnv : Type := AiEnv {
  (** [GEMINI_API_KEY] is set *)
  apiKey : bool;
  (** [startChat({ history })] on the model built with the system prompt,
      then [chat.sendMessage(userMessage)] and [response.text()] *)
  generate : list turn -> string -> string -> outcome string;
  (** outcome of [fs.writeJson] for the user turn and for the model turn *)
  writeUserOk : bool;
  writeModelOk : bool
}.

Definition failed (message : string) : string :=
  "Failed to generate AI response: " +:+ message.

(** [generateAIResponse(userMessage, mobileNumber, promptManager, aiHandler)]:
    the history files afterwards and the text returned or the error thrown. *)
Definition generateAIResponse (env : aiEnv) (prompts : PromptManager.store)
    (files : gmap string histFile) (userMessage mobileNumber : string)
  : gmap string histFile * outcome string :=
  if negb (apiKey env) then (files, Throw "Gemini API key is not configured.")
  else
    match PromptManager.getPromptByMobile prompts mobileNumber with
    | Throw message => (files, Throw (failed message))
    | Ok systemPromptData =>
        let systemPromptText := PromptManager.systemPrompt systemPromptData in
        if negb (Js.truthy systemPromptText) then
          (files, Throw (failed ("System prompt not found or invalid for "
                                 +:+ mobileNumber)))
        else
          let files1 :=
            addMessageToHistory (writeUserOk env) files mobileNumber
                                "user" userMessage in
          let history := getHistory files1 mobileNumber in
          match generate env history systemPromptText userMessage with
          | Throw message => (files1, Throw (failed message))
          | Ok text =>
              (addMessageToHistory (writeModelOk env) files1 mobileNumber
                                   "model" text,
               Ok text)
          end
    end.

End AiHandler.

(** ** Session manager ([src/sessionManager.js]) *)

Module SessionManager.

(** A [Client] object: the [clientId] given to its [LocalAuth] strategy and
    the identity of the object itself. *)
Record clientRef : Type := Client { clientId : string; uid : nat }.

#[export] Instance clientRef_eq_dec : EqDecision clientRef.
Proof. solve_decision. Defined.

(** What [initializeAI] returns: an object holding [getHistory],
    [addMessageToHistory] and [clearHistory], each taking the mobile. *)
Inductive aiHandlerObj : Type := AiHandlerObj.

(** A value of the [clients] map, also the shape of the partial states
    given to [updateSessionState]. [None] is a missing key; for
    [pairingCode] and [aiHandler], [Some None] is [null]. *)
Record sessionState : Type := SessionState {
  client : option clientRef;
  status : option string;
  pairingCode : option (option string);
  lastActive : option Z;
  promptManager : option unit;
  aiHandler : option (option aiHandlerObj)
}.

(** One key of [{ ...old, ...state }]. *)
Definition over {A : Type} (new old : option A) : option A :=
  match new with
  | Some v => Some v
  | None => old
  end.

(** [{ ...old, ...state }] *)
Definition spread (old state : sessionState) : sessionState :=
  SessionState (over (client state) (client old))
               (over (status state) (status old))
               (over (pairingCode state) (pairingCode old))
               (over (lastActive state) (lastActive old))
               (over (promptManager state) (promptManager old))
               (over (aiHandler state) (aiHandler old)).

(** [updateSessionState] *)
Definition updateSessionState (mobile : string) (state : sessionState)
    (clients : gmap string sessionState) : gmap string sessionState :=
  match clients !! mobile with
  | Some old => <[mobile := spread old state]> clients
  | None => <[mobile := state]> clients
  end.

(** The module state reached from the session manager: the [clients] map,
    the history files of the AI handler and the prompt manager's store. *)
Record world : Type := World {
  clients : gmap string sessionState;
  histories : gmap string AiHandler.histFile;
  prompts : PromptManager.store
}.

(** Calls made on the collaborators, in order, each with its outcome
    ([true]: it returned, [false]: it threw) where the caller catches it. *)
Inductive action : Type :=
  | ClientDestroy (c : clientRef) (ok : bool)
  | FsRemoveSession (mobile : string) (ok : bool)
  | ClearHistory (mobile : string) (ok : bool)
  | ClientInitialize (c : clientRef) (ok : bool)
  | RequestPairingCode (c : clientRef) (mobile : string) (ok : bool)
  | ClientSend (c : clientRef) (to text : string) (ok : bool)
  | SetPromptCall (mobile text : string)
  | AiRelayCall (utterance identity : string).

(** Outcomes of the three guarded steps of [removeSession]. *)
Record teardownEnv : Type := TeardownEnv {
  destroyOk : bool;
  removeDirOk : bool;
  clearOk : bool
}.

(** [removeSession]: every step sits in its own [try]/[catch], so the
    function never throws. *)
Definition removeSession (env : teardownEnv) (mobile : string) (w : world)
  : world * list action :=
  let sessionState := clients w !! mobile in
  let destroyed :=
    match sessionState with
    | Some s =>
        match client s with
        | Some c => [ClientDestroy c (destroyOk env)]
        | None => []
        end
    | None => []
    end in
  let removed := [FsRemoveSession mobile (removeDirOk env)] in
  let '(histories', cleared) :=
    match sessionState with
    | Some s =>
        match aiHandler s with
        | Some (Some AiHandlerObj) =>
            (AiHandler.clearHistory (clearOk env) (histories w) mobile,
             [ClearHistory mobile (clearOk env)])
        | _ => (histories w, [])
        end
    | None => (histories w, [])
    end in
  (World (delete mobile (clients w)) histories' (prompts w),
   destroyed ++ removed ++ cleared).

(** Events of the transport that the registered handlers react to. [EvQr]
    carries the outcome of the [requestPairingCode] its handler awaits; the
    others carry the [Date.now()] of their handler. *)
Inductive event : Type :=
  | EvQr (pairing : outcome string)
  | EvReady (now : Z)
  | EvAuthenticated (now : Z)
  | EvAuthFailure (now : Z)
  | EvDisconnected (now : Z).

(** Where the handlers were registered: [createOrReuseSession] registers no
    ['qr'] handler, [loadExistingSessions] does. *)
Inductive origin : Type := Created | Recovered.

(** The handlers [client.on(...)] closed over [mobileNumber] and [client]. *)
Definition onEvent (o : origin) (mobileNumber : string) (c : clientRef)
    (ev : event) (reg : gmap string sessionState) : gmap string sessionState :=
  match ev with
  | EvQr pairing =>
      match o with
      | Recovered =>
          let code := match pairing with
                      | Ok pairingCode => pairingCode
                      | Throw _ => "ERROR"
                      end in
          updateSessionState mobileNumber
            (SessionState None (Some "pairing") (Some (Some code))
                          None None None) reg
      | Created => reg
      end
  | EvReady now =>
      updateSessionState mobileNumber
        (SessionState (Some c) (Some "ready") (Some None) (Some now)
                      None None) reg
  | EvAuthenticated now =>
      updateSessionState mobileNumber
        (SessionState (Some c) (Some "authenticated") None (Some now)
                      None None) reg
  | EvAuthFailure now =>
      updateSessionState mobileNumber
        (SessionState (Some c) (Some "unauthenticated") (Some None) (Some now)
                      None None) reg
  | EvDisconnected now =>
      updateSessionState mobileNumber
        (SessionState (Some c) (Some "disconnected") (Some None) (Some now)
                      None None) reg
  end.

(** The handlers run on a sequence of events, in order. *)
Definition onEvents (o : origin) (mobileNumber : string) (c : clientRef)
    (evs : list event) (reg : gmap string sessionState)
  : gmap string sessionState :=
  fold_left (fun r ev => onEvent o mobileNumber c ev r) evs reg.

(** The state stored once [client.initialize()] has returned. *)
Definition initializingState (c : clientRef) (now : Z) : sessionState :=
  SessionState (Some c) (Some "initializing") (Some None) (Some now)
               (Some tt) (Some None).

(** The observable fields of a session in a JSON answer. *)
Record sessionInfo : Type := SessionInfo {
  info_exists : bool;
  info_ready : bool;
  info_pairingCode : option string;
  info_status : option string
}.

(** [res.status(code).json({ message, ... })]; the [error] key of the 500
    answers, which repeats the message of the error caught, is left out. *)
Record reply : Type := Reply {
  code : nat;
  message : string;
  info : option sessionInfo
}.

Definition hasStatus (s : sessionState) (name : string) : bool :=
  bool_decide (status s = Some name).

(** [null] and a missing key both answer [null] in JSON. *)
Definition codeOf (s : sessionState) : option string :=
  match pairingCode s with
  | Some (Some code) => Some code
  | _ => None
  end.

(** The collaborators of one [createOrReuseSession] call: the identity of
    the [new Client], the outcome of [client.initialize()] and the events
    handled while it is awaited, the same for [requestPairingCode], and the
    outcomes of the teardown when one of the two throws. *)
Record createEnv : Type := CreateEnv {
  newUid : nat;
  initializeResult : outcome unit;
  duringInitialize : list event;
  pairingResult : outcome string;
  duringPairing : list event;
  teardown : teardownEnv
}.

Definition withClients (w : world) (reg : gmap string sessionState) : world :=
  World reg (histories w) (prompts w).

(** [createOrReuseSession(req, res)] with [req.params.mobile = mobile]: the
    state afterwards, the answer, and the calls made on the collaborators.
    The call is taken as a whole: of what may happen while it awaits, only
    the events of its own client are followed. [MAX_SESSIONS] is the
    integer [parseInt] read from the environment. *)
Definition createOrReuseSession (MAX_SESSIONS : Z) (env : createEnv) (now : Z)
    (mobile : string) (w : world) : world * reply * list action :=
  let mobileNumber := Js.digitsOnly mobile in
  let reg := clients w in
  let sessionState := reg !! mobileNumber in
  if (MAX_SESSIONS <=? Z.of_nat (size reg))
     && negb (bool_decide (is_Some sessionState))
  then (w, Reply 429 "Maximum number of sessions reached." None, [])
  else
    let hasClient :=
      match sessionState with
      | Some s => bool_decide (is_Some (client s))
      | None => false
      end in
    let statusIs name :=
      match sessionState with
      | Some s => hasStatus s name
      | None => false
      end in
    if hasClient && (statusIs "ready" || statusIs "authenticated") then
      (withClients w
         (updateSessionState mobileNumber
            (SessionState None None None (Some now) None None) reg),
       Reply 200 ("Session already active with status: "
                  +:+ default EmptyString (sessionState ≫= status))
             (Some (SessionInfo true true None None)),
       [])
    else if hasClient && statusIs "pairing" then
      (w,
       Reply 200 "Session is pairing"
             (Some (SessionInfo true false
                      (from_option codeOf None sessionState) None)),
       [])
    else if statusIs "initializing" then
      (w,
       Reply 200 "Session is currently initializing, please wait."
             (Some (SessionInfo true false None None)),
       [])
    else
      let c := Client mobileNumber (newUid env) in
      let reg1 := onEvents Created mobileNumber c (duringInitialize env) reg in
      match initializeResult env with
      | Throw _ =>
          let '(w', torn) :=
            removeSession (teardown env) mobileNumber (withClients w reg1) in
          (w', Reply 500 "Failed to initialize session" None,
           ClientInitialize c false :: torn)
      | Ok _ =>
          let reg2 :=
            updateSessionState mobileNumber (initializingState c now) reg1 in
          let reg3 :=
            onEvents Created mobileNumber c (duringPairing env) reg2 in
          match pairingResult env with
          | Throw _ =>
              let '(w', torn) :=
                removeSession (teardown env) mobileNumber
                              (withClients w reg3) in
              (w', Reply 500 "Failed to initialize session" None,
               ClientInitialize c true
               :: RequestPairingCode c mobileNumber false :: torn)
          | Ok pairingCode =>
              (withClients w
                 (updateSessionState mobileNumber
                    (SessionState None (Some "pairing")
                                  (Some (Some pairingCode)) None None None)
                    reg3),
               Reply 201 "Session initialization started. Use pairing code."
                     (Some (SessionInfo true false (Some pairingCode) None)),
               [ClientInitialize c true;
                RequestPairingCode c mobileNumber true])
          end
      end.

(** The collaborators of the recovery of one session folder. *)
Record recoverEnv : Type := RecoverEnv {
  rec_uid : nat;
  rec_now : Z;
  rec_initializeResult : outcome unit;
  rec_duringInitialize : list event;
  rec_teardown : teardownEnv
}.

(** The body of the loop of [loadExistingSessions] for one [folder]. *)
Definition recoverSession (env : recoverEnv) (folder : string) (w : world)
  : world * list action :=
  match Js.stripPrefix "session-" folder with
  | None => (w, [])
  | Some mobileNumber =>
      let c := Client mobileNumber (rec_uid env) in
      let reg1 :=
        onEvents Recovered mobileNumber c (rec_duringInitialize env)
                 (clients w) in
      match rec_initializeResult env with
      | Ok _ =>
          (withClients w
             (updateSessionState mobileNumber
                (initializingState c (rec_now env)) reg1),
           [ClientInitialize c true])
      | Throw _ =>
          let '(w', torn) :=
            removeSession (rec_teardown env) mobileNumber
                          (withClients w reg1) in
          (w', ClientInitialize c false :: torn)
      end
  end.

(** [loadExistingSessions] over the entries [fs.readdir] returned, each with
    the collaborators of its recovery. Each body of the loop handles the
    events of its own client only. The handlers of a client recovered
    earlier stay registered while the loop awaits the following folders:
    an event of such a client is an [OpEvent] of a run, between the
    recovery of the folders before it and the recovery of those after it
    (see [op] and [step] below). *)
Fixpoint loadExistingSessions (folders : list (string * recoverEnv))
    (w : world) : world * list action :=
  match folders with
  | [] => (w, [])
  | (folder, env) :: rest =>
      let '(w1, t1) := recoverSession env folder w in
      let '(w2, t2) := loadExistingSessions rest w1 in
      (w2, t1 ++ t2)
  end.

(** [getSessionStatus] *)
Definition getSessionStatus (mobile : string) (w : world) : reply :=
  let mobileNumber := Js.digitsOnly mobile in
  match clients w !! mobileNumber with
  | None =>
      Reply 404 "Session not found" (Some (SessionInfo false false None None))
  | Some sessionState =>
      Reply 200 EmptyString
        (Some (SessionInfo true
                 (hasStatus sessionState "ready")
                 (if hasStatus sessionState "pairing"
                  then codeOf sessionState else None)
                 (status sessionState)))
  end.

(** [getPairingCode] *)
Definition getPairingCode (mobile : string) (w : world) : reply :=
  let mobileNumber := Js.digitsOnly mobile in
  let notFound := Reply 404 "No active pairing code found for this session."
                        None in
  match clients w !! mobileNumber with
  | None => notFound
  | Some sessionState =>
      if negb (hasStatus sessionState "pairing") then notFound
      else
        match codeOf sessionState with
        | Some pairingCode =>
            if Js.truthy pairingCode
            then Reply 200 EmptyString
                       (Some (SessionInfo true false (Some pairingCode) None))
            else notFound
        | None => notFound
        end
  end.

(** [sendMessage(req, res)] with [req.body = { to, message }]; [sendOk] is
    the outcome of [client.sendMessage]. *)
Definition sendMessage (sendOk : bool) (mobile to message : string)
    (w : world) : world * reply * list action :=
  let mobileNumber := Js.digitsOnly mobile in
  if negb (Js.truthy to) || negb (Js.truthy message) then
    (w,
     Reply 400 ("Missing " +:+ Js.dquote +:+ "to" +:+ Js.dquote +:+ " or "
                +:+ Js.dquote +:+ "message" +:+ Js.dquote
                +:+ " in request body.") None,
     [])
  else
    let notFound := Reply 404 "Session not found or not ready." None in
    match clients w !! mobileNumber with
    | None => (w, notFound, [])
    | Some sessionState =>
        match client sessionState with
        | None => (w, notFound, [])
        | Some c =>
            if negb (hasStatus sessionState "ready") then (w, notFound, [])
            else if sendOk then
              (w, Reply 200 "Message sent successfully" None,
               [ClientSend c to message true])
            else
              (w, Reply 500 "Failed to send message" None,
               [ClientSend c to message false])
        end
    end.

(** One element of the answer of [listSessions]. *)
Definition sessionView (entry : string * sessionState)
  : string * sessionInfo * option Z :=
  let '(mobile, state) := entry in
  (mobile,
   SessionInfo true (hasStatus state "ready")
               (if hasStatus state "pairing" then codeOf state else None)
               (status state),
   lastActive state).

(** [listSessions]; the insertion order of the JavaScript [Map] is not kept. *)
Definition listSessions (w : world) : list (string * sessionInfo * option Z) :=
  sessionView <$> map_to_list (clients w).

(** [deleteSession] *)
Definition deleteSession (env : teardownEnv) (mobile : string) (w : world)
  : world * reply * list action :=
  let mobileNumber := Js.digitsOnly mobile in
  match clients w !! mobileNumber with
  | None => (w, Reply 404 "Session not found." None, [])
  | Some _ =>
      let '(w', torn) := removeSession env mobileNumber w in
      (w',
       Reply 200 ("Session for " +:+ mobileNumber
                  +:+ " destroyed successfully.") None,
       torn)
  end.

(** An inbound message: [msg.from] and [msg.body]. *)
Record inbound : Type := Inbound { msg_from : string; msg_body : string }.

(** The collaborators of one run of the ['message_create'] handler:
    those of the AI relay, the outcome of the prompt file write, and the
    outcome of [client.sendMessage(to, text)]. [initializeAI] only ensures
    the histories directory, which [app.js] has created at start-up. *)
Record routerEnv : Type := RouterEnv {
  ai : AiHandler.aiEnv;
  promptWriteOk : bool;
  sendOk : string -> string -> bool
}.

Definition promptUpdated : string := "Prompt updated successfully!".
Definition promptFailed : string := "Failed to update prompt.".
Definition promptMissing : string :=
  "Please provide a prompt after the .setprompt command.".
Definition apology : string :=
  "Sorry, I encountered an error processing your request.".
Definition welcome : string :=
  "Welcome! You can start a conversation by sending a message starting with a dot (.), or set a new prompt using "
  +:+ Js.dquote +:+ ".setprompt your new prompt here" +:+ Js.dquote +:+ ".".

(** [await client.sendMessage(to, text)] inside a [try] whose [catch] sends
    [fallback]. *)
Definition sendOrFallback (env : routerEnv) (c : clientRef)
    (to text fallback : string) : list action :=
  if sendOk env to text then [ClientSend c to text true]
  else [ClientSend c to text false;
        ClientSend c to fallback (sendOk env to fallback)].

(** [msg.from.split('@')[0]] *)
Definition fromNumberOf (msg : inbound) : string :=
  match Js.split "@" (msg_from msg) with
  | n :: _ => n
  | [] => EmptyString
  end.

(** [msg.body.slice(1).trim()] *)
Definition commandOf (msg : inbound) : string :=
  Js.trim (Js.slice1 (msg_body msg)).

(** [command.split(' ')[0]] *)
Definition commandNameOf (msg : inbound) : string :=
  match Js.split " " (commandOf msg) with
  | commandName :: _ => commandName
  | [] => EmptyString
  end.

(** The ['message_create'] handler registered on client [c], whose
    [client.info.wid.user] is [owner]. *)
Definition onMessage (env : routerEnv) (c : clientRef) (owner : string)
    (msg : inbound) (w : world) : world * list action :=
  if negb (Js.startsWithDot (msg_body msg)) then (w, [])
  else
    let fromNumber := fromNumberOf msg in
    let sessionOwnerNumber := owner in
    let command := commandOf msg in
    let args := tail (Js.split " " command) in
    if bool_decide (commandNameOf msg = "setprompt")
       && bool_decide (fromNumber = sessionOwnerNumber)
    then
      let newPrompt := Js.join args in
      if Js.truthy newPrompt then
        match PromptManager.setPrompt (promptWriteOk env) false
                sessionOwnerNumber newPrompt (prompts w) with
        | Ok (st', _) =>
            (World (clients w) (histories w) st',
             SetPromptCall sessionOwnerNumber newPrompt
             :: sendOrFallback env c (msg_from msg) promptUpdated promptFailed)
        | Throw _ =>
            (w,
             [SetPromptCall sessionOwnerNumber newPrompt;
              ClientSend c (msg_from msg) promptFailed
                         (sendOk env (msg_from msg) promptFailed)])
        end
      else
        (w, [ClientSend c (msg_from msg) promptMissing
                        (sendOk env (msg_from msg) promptMissing)])
    else if negb (bool_decide (command = EmptyString)) then
      let '(files', answer) :=
        AiHandler.generateAIResponse (ai env) (prompts w) (histories w)
                                     command fromNumber in
      let w' := World (clients w) files' (prompts w) in
      let sent :=
        match answer with
        | Ok response =>
            if Js.truthy response
            then sendOrFallback env c (msg_from msg) response apology
            else []
        | Throw _ =>
            [ClientSend c (msg_from msg) apology
                        (sendOk env (msg_from msg) apology)]
        end in
      (w', AiRelayCall command fromNumber :: sent)
    else
      (w, [ClientSend c (msg_from msg) welcome
                      (sendOk env (msg_from msg) welcome)]).

(** ** Runs of the manager *)

(** What can happen to the module state: a request of the HTTP layer, the
    start-up recovery, or a callback of a transport client. *)
Inductive op : Type :=
  | OpCreate (env : createEnv) (now : Z) (mobile : string)
  | OpLoad (folders : list (string * recoverEnv))
  | OpEvent (o : origin) (mobileNumber : string) (c : clientRef) (ev : event)
  | OpMessage (env : routerEnv) (c : clientRef) (owner : string)
              (msg : inbound)
  | OpSend (ok : bool) (mobile to text : string)
  | OpDelete (env : teardownEnv) (mobile : string)
  | OpSetPrompt (writeOk : bool) (mobile text : string)
  | OpDeletePrompt (removeOk : bool) (mobile : string).

Definition step (MAX_SESSIONS : Z) (w : world) (o : op) : world :=
  match o with
  | OpCreate env now mobile =>
      (createOrReuseSession MAX_SESSIONS env now mobile w).1.1
  | OpLoad folders => (loadExistingSessions folders w).1
  | OpEvent o mobileNumber c ev =>
      withClients w (onEvent o mobileNumber c ev (clients w))
  | OpMessage env c owner msg => (onMessage env c owner msg w).1
  | OpSend ok mobile to text => (sendMessage ok mobile to text w).1.1
  | OpDelete env mobile => (deleteSession env mobile w).1.1
  | OpSetPrompt writeOk mobile text =>
      match PromptManager.setPrompt writeOk true mobile text (prompts w) with
      | Ok (st', _) => World (clients w) (histories w) st'
      | Throw _ => w
      end
  | OpDeletePrompt removeOk mobile =>
      World (clients w) (histories w)
            (PromptManager.deletePrompt removeOk mobile (prompts w)).1
  end.

Definition run (MAX_SESSIONS : Z) (ops : list op) (w : world) : world :=
  fold_left (step MAX_SESSIONS) ops w.

(** The state when the process starts: no session, whatever histories and
    prompts the disk holds. *)
Definition initial (files : gmap string AiHandler.histFile)
    (st : PromptManager.store) : world :=
  World ∅ files st.

(** The states the manager can be in. *)
Definition reachable (MAX_SESSIONS : Z) (w : world) : Prop :=
  ∃ files st ops, w = run MAX_SESSIONS ops (initial files st).

End SessionManager.

(** ** Invariant of the registry, and collaborators for concrete runs *)

Module Runs.

Import PromptManager AiHandler SessionManager.

(** What every entry the manager stores satisfies: an entry without a
    client is one in pairing state, and no entry holds an AI handler. *)
Definition entryOk (s : sessionState) : Prop :=
  (client s = None → status s = Some "pairing")
  ∧ aiHandler s ≠ Some (Some AiHandlerObj).

(** The partial states the handlers pass to [updateSessionState], the
    [{ lastActive }] one apart. *)
Definition patchOk (p : sessionState) : Prop :=
  (is_Some (client p) ∨ status p = Some "pairing")
  ∧ aiHandler p ≠ Some (Some AiHandlerObj).

Definition registryOk (reg : gmap string sessionState) : Prop :=
  map_Forall (λ _ s, entryOk s) reg.

(** A teardown in which nothing fails. *)
Definition allOk : teardownEnv := TeardownEnv true true true.

(** A creation that goes through and is given [pairingCode]. *)
Definition pairedWith (n : nat) (pairingCode : string) : createEnv :=
  CreateEnv n (Ok tt) [] (Ok pairingCode) [] allOk.

(** A prompt store with the default prompt loaded and no custom prompt. *)
Definition noPrompts : store := Store ∅ (Some (PromptData "Be helpful.")).

(** A router whose model answers [answer] and whose writes and sends all
    go through. *)
Definition answering (answer : string) : routerEnv :=
  RouterEnv (AiEnv true (fun _ _ _ => Ok answer) true true)
            true (fun _ _ => true).

(** Identity 911 pairs, is authenticated and gets ready; it then sends
    itself [.hi] and is answered. *)
Definition readyAndChatting : list op :=
  [OpCreate (pairedWith 0 "ABCD-1234") 5 "911";
   OpEvent Created "911" (Client "911" 0) (EvAuthenticated 6);
   OpEvent Created "911" (Client "911" 0) (EvReady 7);
   OpMessage (answering "hello") (Client "911" 0) "911"
             (Inbound "911@c.us" ".hi")].

End Runs.

(** ** Request validation ([src/middleware/validation.js]) *)

Module Validation.

(** [/^\d+$/]: one digit or more, and nothing else. *)
Fixpoint allDigits (s : string) : bool :=
  match s with
  | EmptyString => true
  | String c r => Js.isDigit c && allDigits r
  end.

(** [mobileSchema]: [Joi.string().pattern(/^\d+$/).required()]; a Joi
    string is not empty. *)
Definition mobileSchema (mobile : string) : bool :=
  Js.truthy mobile && allDigits mobile.

(** What is left of [s] after its leading digits. *)
Fixpoint dropDigits (s : string) : string :=
  match s with
  | EmptyString => EmptyString
  | String c r => if Js.isDigit c then dropDigits r else s
  end.

(** What [.] does not match in a regular expression without the [s] flag. *)
Definition isLineTerminator (c : ascii) : bool :=
  let n := nat_of_ascii c in (n =? 10)%nat || (n =? 13)%nat.

(** [/^\d+@c.us$/]: the dot is not escaped and stands for one code unit. *)
Definition whatsAppId (s : string) : bool :=
  match s with
  | EmptyString => false
  | String c _ =>
      Js.isDigit c
      && match dropDigits s with
         | String "@" (String "c" (String x (String "u" (String "s" EmptyString)))) =>
             negb (isLineTerminator x)
         | _ => false
         end
  end.

(** The body of a send request, as far as the schema can accept it: each
    of the two keys is missing or holds a string. *)
Record sendBody : Type := SendBody {
  body_to : option string;
  body_message : option string
}.

(** [sendMessageSchema.validate(req.body)]: the validated [to] and
    [message], or [None] for an error. *)
Definition sendMessageSchema (b : sendBody) : option (string * string) :=
  match body_to b, body_message b with
  | Some to, Some message =>
      if whatsAppId to && Js.truthy message then Some (to, message) else None
  | _, _ => None
  end.

End Validation.

(** ** Routes ([src/app.js]) *)

Module App.

Import Validation.

(** What a route does with a request: a validation middleware answers 400
    with Joi's message, or the handler runs. *)
Inductive routed (A : Type) : Type :=
  | Rejected
  | Handled (a : A).
Arguments Rejected {A}.
Arguments Handled {A} a.

(** [POST /mobile/:mobile/send] *)
Definition postSend (sendOk : bool) (mobile : string) (b : sendBody)
    (w : SessionManager.world)
  : routed (SessionManager.world * SessionManager.reply
            * list SessionManager.action) :=
  if mobileSchema mobile then
    match sendMessageSchema b with
    | Some (to, message) =>
        Handled (SessionManager.sendMessage sendOk mobile to message w)
    | None => Rejected
    end
  else Rejected.

End App.

(** ** Prompt files ([src/promptManager.js], start-up part) *)

Module PromptFiles.

Import PromptManager.

(** Content of a file of the prompts directory: a prompt, or something
    [fs.readJson] fails on. *)
Inductive promptFile : Type :=
  | PromptJson (data : promptData)
  | PromptUnreadable.

Definition DEFAULT_PROMPT_FILE : string := "default.json".

(** [defaultContent] of [ensurePromptFiles] *)
Definition defaultContent : promptData :=
  PromptData "You are a helpful AI assistant integrated with WhatsApp. Respond to user messages conversationally and provide assistance. Keep responses concise and relevant to the conversation. You can access information and perform tasks based on the context provided.".

(** Outcomes of [fs.ensureDir] and of the write of the default file. *)
Record filesEnv : Type := FilesEnv {
  ensureDirOk : bool;
  writeDefaultOk : bool
}.

(** [ensurePromptFiles]: the directory afterwards, or [None] when it
    throws. *)
Definition ensurePromptFiles (env : filesEnv) (disk : gmap string promptFile)
  : option (gmap string promptFile) :=
  if negb (ensureDirOk env) then None
  else
    match disk !! DEFAULT_PROMPT_FILE with
    | Some _ => Some disk
    | None =>
        if writeDefaultOk env
        then Some (<[DEFAULT_PROMPT_FILE := PromptJson defaultContent]> disk)
        else None
    end.

(** The fallback of [loadDefaultPrompt]. *)
Definition fallbackPrompt : promptData :=
  PromptData "Error loading default prompt.".

(** What [fs.readJson(DEFAULT_PROMPT_FILE)] gives [loadDefaultPrompt]: a
    truthy JSON value, taken with its [systemPrompt] (the empty string when
    it has none); a falsy JSON value ([null], [false], [0], an empty
    string); or an error. *)
Inductive defaultRead : Type :=
  | ReadPrompt (data : promptData)
  | ReadFalsy
  | ReadThrows.

(** [loadDefaultPrompt]: the directory and the store afterwards. Whatever
    [fs.readJson] returns is assigned to [defaultPrompt]; an error anywhere
    assigns the fallback. *)
Definition loadDefaultPrompt (env : filesEnv) (read : defaultRead)
    (disk : gmap string promptFile) (st : store)
  : gmap string promptFile * store :=
  match ensurePromptFiles env disk with
  | Some disk' =>
      (disk',
       Store (customPrompts st)
             match read with
             | ReadPrompt data => Some data
             | ReadFalsy => None
             | ReadThrows => Some fallbackPrompt
             end)
  | None => (disk, Store (customPrompts st) (Some fallbackPrompt))
  end.

(** [s.endsWith(suffix)] *)
Fixpoint endsWith (suffix s : string) : bool :=
  if String.eqb s suffix then true
  else match s with
       | EmptyString => false
       | String _ r => endsWith suffix r
       end.

(** [s.replace(pattern, '')] for a string [pattern] that is not empty: the
    first occurrence is dropped. *)
Fixpoint replaceFirst (pattern s : string) : string :=
  match Js.stripPrefix pattern s with
  | Some rest => rest
  | None =>
      match s with
      | EmptyString => EmptyString
      | String c r => String c (replaceFirst pattern r)
      end
  end.

(** The key under which [loadCustomPrompts] stores [file], when it is a
    custom prompt file. *)
Definition promptKey (file : string) : option string :=
  if endsWith ".json" file && negb (String.eqb file "default.json")
  then Some (replaceFirst ".json" file)
  else None.

(** The body of the loop of [loadCustomPrompts] for one [file]. *)
Definition loadCustomPrompt (disk : gmap string promptFile)
    (prompts : gmap string promptData) (file : string)
  : gmap string promptData :=
  match promptKey file with
  | Some mobileNumber =>
      match disk !! file with
      | Some (PromptJson data) => <[mobileNumber := data]> prompts
      | _ => prompts
      end
  | None => prompts
  end.

(** [loadCustomPrompts]; [readdir] is what [fs.readdir] returns, [None] when
    it throws. *)
Definition loadCustomPrompts (env : filesEnv) (readdir : option (list string))
    (disk : gmap string promptFile) (st : store)
  : gmap string promptFile * store :=
  match ensurePromptFiles env disk with
  | Some disk' =>
      match readdir with
      | Some files =>
          (disk',
           Store (fold_left (loadCustomPrompt disk') files (customPrompts st))
                 (defaultPrompt st))
      | None => (disk', st)
      end
  | None => (disk, st)
  end.


End PromptFiles.

(** ** History reads that can fail *)

Module AiHandlerReads.

Import AiHandler.





End AiHandlerReads.

(** ** The identity an operation concerns *)

Module Concerns.

Import SessionManager.

(** The operations that can write the registry entry of [k]: the
    create and delete requests for [k], the recovery of a folder
    [session-k], and the callbacks of a client registered for [k]. *)
Definition touches (k : string) (o : op) : Prop :=
  match o with
  | OpCreate _ _ mobile => Js.digitsOnly mobile = k
  | OpLoad folders =>
      Exists (λ fe, Js.stripPrefix "session-" fe.1 = Some k) folders
  | OpEvent _ mobileNumber _ _ => mobileNumber = k
  | OpDelete _ mobile => Js.digitsOnly mobile = k
  | OpMessage _ _ _ _ => False
  | OpSend _ _ _ _ => False
  | OpSetPrompt _ _ _ => False
  | OpDeletePrompt _ _ => False
  end.

End Concerns.

(** ** Predicates on strings used to state properties *)

Module Text.

(** The last code unit of [s]. *)
Fixpoint lastChar (s : string) : option ascii :=
  match s with
  | EmptyString => None
  | String c EmptyString => Some c
  | String _ r => lastChar r
  end.

(** The first code unit of [s]. *)
Definition firstChar (s : string) : option ascii :=
  match s with
  | EmptyString => None
  | String c _ => Some c
  end.

(** [s] is made of white space only. *)
Fixpoint allSpaces (s : string) : bool :=
  match s with
  | EmptyString => true
  | String c r => Js.isSpace c && allSpaces r
  end.

(** [c] does not occur in [s]. *)
Fixpoint lacks (c : ascii) (s : string) : bool :=
  match s with
  | EmptyString => true
  | String d r => negb (Ascii.eqb d c) && lacks c r
  end.

End Text.

(** * Properties *)

Import PromptManager AiHandler SessionManager Runs.

(** ** History append *)

Lemma isDuplicate_last (history : list turn) (r content : string) :
  isDuplicate history r content = true ↔
  last history = Some (Turn r content).
Proof.
  unfold isDuplicate. destruct (last history) as [[r' t']|]; simpl.
  - rewrite andb_true_iff, !bool_decide_eq_true. split.
    + intros [-> ->]. reflexivity.
    + intros [= -> ->]. split; reflexivity.
  - split; discriminate.
Qed.

Lemma isDuplicate_snoc (history : list turn) (r content : string) :
  isDuplicate (history ++ [Turn r content]) r content = true.
Proof. apply isDuplicate_last. apply last_snoc. Qed.

Lemma getHistory_insert (files : gmap string histFile) (mobile : string)
    (history : list turn) :
  getHistory (<[mobile := HistJson history]> files) mobile = history.
Proof. unfold getHistory. rewrite lookup_insert_eq. reflexivity. Qed.

Lemma getHistory_insert_ne (files : gmap string histFile)
    (mobile other : string) (f : histFile) :
  mobile ≠ other →
  getHistory (<[mobile := f]> files) other = getHistory files other.
Proof. intros Hne. unfold getHistory. rewrite lookup_insert_ne; done. Qed.

(** What one append leaves in the file of [mobile]. *)
Lemma getHistory_addMessageToHistory (writeOk : bool)
    (files : gmap string histFile) (mobile r content : string) :
  getHistory (addMessageToHistory writeOk files mobile r content) mobile =
  if isDuplicate (getHistory files mobile) r content || negb writeOk
  then getHistory files mobile
  else getHistory files mobile ++ [Turn r content].
Proof.
  unfold addMessageToHistory.
  destruct (isDuplicate _ r content); simpl; [reflexivity|].
  destruct writeOk; simpl; [apply getHistory_insert | reflexivity].
Qed.

(** An append never touches the file of another identity. *)
Lemma addMessageToHistory_other (writeOk : bool)
    (files : gmap string histFile) (mobile other r content : string) :
  mobile ≠ other →
  addMessageToHistory writeOk files mobile r content !! other = files !! other.
Proof.
  intros Hne. unfold addMessageToHistory.
  destruct (isDuplicate _ r content); [reflexivity|].
  destruct writeOk; [|reflexivity].
  rewrite lookup_insert_ne; done.
Qed.

(** C4: appending a turn equal to the last stored turn changes nothing; so
    after an append of [(r, content)] that was written, a second append of
    the same pair is a no-op, and the two appends together add exactly one
    turn to a history that did not already end with it. *)
Theorem addMessageToHistory_consecutive_duplicate
    (w1 w2 : bool) (files : gmap string histFile) (mobile r content : string) :
  (last (getHistory files mobile) = Some (Turn r content) →
   addMessageToHistory w1 files mobile r content = files)
  ∧ (let once := addMessageToHistory true files mobile r content in
     addMessageToHistory w2 once mobile r content = once)
  ∧ (last (getHistory files mobile) ≠ Some (Turn r content) →
     getHistory
       (addMessageToHistory w2
          (addMessageToHistory true files mobile r content) mobile r content)
       mobile
     = getHistory files mobile ++ [Turn r content]).
Proof.
  assert (Hdup : ∀ w fs, last (getHistory fs mobile) = Some (Turn r content) →
                         addMessageToHistory w fs mobile r content = fs).
  { intros w fs Hlast. unfold addMessageToHistory.
    apply isDuplicate_last in Hlast. rewrite Hlast. reflexivity. }
  assert (Honce : last (getHistory
                          (addMessageToHistory true files mobile r content)
                          mobile) = Some (Turn r content)).
  { rewrite getHistory_addMessageToHistory. simpl. rewrite orb_false_r.
    destruct (isDuplicate _ r content) eqn:E.
    - apply isDuplicate_last. exact E.
    - apply last_snoc. }
  split; [apply Hdup|]. split.
  - simpl. apply Hdup. exact Honce.
  - intros Hnot. rewrite (Hdup w2 _ Honce).
    rewrite getHistory_addMessageToHistory. simpl. rewrite orb_false_r.
    destruct (isDuplicate _ r content) eqn:E; [|reflexivity].
    apply isDuplicate_last in E. contradiction.
Qed.

Lemma addMessageToHistory_consecutive_duplicate_witness :
  let files : gmap string histFile :=
    {[ "911" := HistJson [Turn "user" "hi"; Turn "model" "hello"] ]} in
  addMessageToHistory true files "911" "model" "hello" = files
  ∧ getHistory
      (addMessageToHistory true
         (addMessageToHistory true files "911" "user" "again")
         "911" "user" "again") "911"
    = [Turn "user" "hi"; Turn "model" "hello"; Turn "user" "again"].
Proof.
  intros files. split.
  - destruct (addMessageToHistory_consecutive_duplicate
                true true files "911" "model" "hello") as [Hdup _].
    apply Hdup. reflexivity.
  - destruct (addMessageToHistory_consecutive_duplicate
                true true files "911" "user" "again") as (_ & _ & Hnew).
    apply Hnew. discriminate.
Defined.

(** ** AI relay *)

(** C6: when the call got as far as appending the user turn (the API key is
    set and the prompt resolves) and the generation call then throws,
    [generateAIResponse] throws to its caller and the history files are the
    ones left by the user append: no model turn is added, and when the user
    turn was written it is the last turn of the stored history. *)
Theorem generateAIResponse_generation_failure
    (env : aiEnv) (st : store) (files : gmap string histFile)
    (userMessage mobileNumber : string) (data : promptData) (err : string) :
  apiKey env = true →
  getPromptByMobile st mobileNumber = Ok data →
  Js.truthy (systemPrompt data) = true →
  generate env
    (getHistory
       (addMessageToHistory (writeUserOk env) files mobileNumber
                            "user" userMessage) mobileNumber)
    (systemPrompt data) userMessage = Throw err →
  let result := generateAIResponse env st files userMessage mobileNumber in
  result.2 = Throw (failed err)
  ∧ result.1 = addMessageToHistory (writeUserOk env) files mobileNumber
                                   "user" userMessage
  ∧ (writeUserOk env = true →
     last (getHistory result.1 mobileNumber) = Some (Turn "user" userMessage))
  ∧ (writeUserOk env = true →
     last (getHistory files mobileNumber) ≠ Some (Turn "user" userMessage) →
     getHistory result.1 mobileNumber
     = getHistory files mobileNumber ++ [Turn "user" userMessage]).
Proof.
  intros Hkey Hprompt Htruthy Hgen. unfold generateAIResponse.
  rewrite Hkey, Hprompt, Htruthy. simpl. rewrite Hgen. simpl.
  split; [reflexivity|]. split; [reflexivity|].
  split.
  - intros Hw. rewrite Hw, getHistory_addMessageToHistory. simpl.
    rewrite orb_false_r.
    destruct (isDuplicate _ "user" userMessage) eqn:E.
    + apply isDuplicate_last. exact E.
    + apply last_snoc.
  - intros Hw Hnot. rewrite Hw, getHistory_addMessageToHistory. simpl.
    rewrite orb_false_r.
    destruct (isDuplicate _ "user" userMessage) eqn:E; [|reflexivity].
    apply isDuplicate_last in E. contradiction.
Qed.

Lemma generateAIResponse_generation_failure_witness :
  let env := AiEnv true (fun _ _ _ => Throw "503 unavailable") true true in
  let st := Store ∅ (Some (PromptData "Be helpful.")) in
  let files : gmap string histFile :=
    {[ "911" := HistJson [Turn "user" "hi"; Turn "model" "hello"] ]} in
  let result := generateAIResponse env st files "why?" "911" in
  result.2 = Throw (failed "503 unavailable")
  ∧ getHistory result.1 "911"
    = [Turn "user" "hi"; Turn "model" "hello"; Turn "user" "why?"].
Proof.
  intros env st files result.
  destruct (generateAIResponse_generation_failure
              env st files "why?" "911" (PromptData "Be helpful.")
              "503 unavailable")
    as (Hthrow & _ & _ & Hhist); try reflexivity.
  split; [exact Hthrow|].
  apply Hhist; [reflexivity | discriminate].
Defined.

(** ** Prompt store *)



(** ** Sending through a session *)

(** C10: for a request with a recipient and a text, [sendMessage] calls the
    transport only when the identity has a session holding a client and
    with status exactly ['ready']; for every other status (and for a
    missing session) it answers 404 and calls nothing; the state is left as
    it was in every case. *)
Theorem sendMessage_only_when_ready
    (ok : bool) (mobile to text : string) (w : world) :
  Js.truthy to = true →
  Js.truthy text = true →
  let result := sendMessage ok mobile to text w in
  result.1.1 = w
  ∧ (result.2 ≠ [] →
     ∃ s c, clients w !! Js.digitsOnly mobile = Some s
            ∧ status s = Some "ready"
            ∧ client s = Some c
            ∧ result.2 = [ClientSend c to text ok])
  ∧ ((∀ s, clients w !! Js.digitsOnly mobile = Some s →
           status s ≠ Some "ready") →
     code result.1.2 = 404%nat ∧ result.2 = []).
Proof.
  intros Hto Htext. unfold sendMessage. rewrite Hto, Htext. simpl.
  destruct (clients w !! Js.digitsOnly mobile) as [s|] eqn:Hs; simpl.
  - destruct (client s) as [c|] eqn:Hc; simpl.
    + unfold hasStatus. case_bool_decide as Hready; simpl.
      * destruct ok; simpl.
        -- split; [reflexivity|]. split.
           ++ intros _. exists s, c. done.
           ++ intros Hnot. destruct (Hnot s eq_refl Hready).
        -- split; [reflexivity|]. split.
           ++ intros _. exists s, c. done.
           ++ intros Hnot. destruct (Hnot s eq_refl Hready).
      * split; [reflexivity|]. split; [done|]. intros _. done.
    + split; [reflexivity|]. split; [done|]. intros _. done.
  - split; [reflexivity|]. split; [done|]. intros _. done.
Qed.

Lemma sendMessage_only_when_ready_witness :
  let authenticated :=
    SessionState (Some (Client "911" 0)) (Some "authenticated")
                 (Some (Some "ABCD-1234")) (Some 7) (Some tt) (Some None) in
  let w := World {[ "911" := authenticated ]} ∅ (Store ∅ None) in
  let result := sendMessage true "911" "4420@c.us" "hello" w in
  result.1.1 = w ∧ code result.1.2 = 404%nat ∧ result.2 = [].
Proof.
  intros authenticated w result.
  destruct (sendMessage_only_when_ready true "911" "4420@c.us" "hello" w)
    as (Hsame & _ & Hother); try reflexivity.
  split; [exact Hsame|]. apply Hother.
  intros s Hs. vm_compute in Hs. injection Hs as <-. discriminate.
Defined.

(** ** Command router *)

Lemma split_head_nonempty (command : string) :
  match Js.split " " command with
  | commandName :: _ => commandName
  | [] => EmptyString
  end ≠ EmptyString →
  command ≠ EmptyString.
Proof. intros Hhead ->. apply Hhead. reflexivity. Qed.

(** C2: for a command message whose command name is [setprompt] and whose
    sender is not the owner of the session, the router does not call the
    prompt store's set operation and leaves the prompt store as it was; it
    calls the AI relay with the whole command body as the utterance, for
    the sender's identity, and besides that only sends through the client. *)
Theorem setprompt_from_non_owner_is_relayed
    (env : routerEnv) (c : clientRef) (owner : string) (msg : inbound)
    (w : world) :
  Js.startsWithDot (msg_body msg) = true →
  commandNameOf msg = "setprompt" →
  fromNumberOf msg ≠ owner →
  let result := onMessage env c owner msg w in
  let relayed :=
    generateAIResponse (ai env) (prompts w) (histories w)
                       (commandOf msg) (fromNumberOf msg) in
  prompts result.1 = prompts w
  ∧ clients result.1 = clients w
  ∧ histories result.1 = relayed.1
  ∧ (∀ mobile text, SetPromptCall mobile text ∉ result.2)
  ∧ ∃ sent, result.2 = AiRelayCall (commandOf msg) (fromNumberOf msg) :: sent
            ∧ Forall (λ a, ∃ text ok, a = ClientSend c (msg_from msg) text ok)
                     sent.
Proof.
  intros Hdot Hname Hfrom. unfold onMessage. rewrite Hdot, Hname. simpl.
  rewrite (bool_decide_eq_false_2 _ Hfrom). simpl.
  assert (Hcmd : commandOf msg ≠ EmptyString).
  { apply split_head_nonempty. fold (commandNameOf msg). rewrite Hname.
    discriminate. }
  rewrite (bool_decide_eq_false_2 _ Hcmd). simpl.
  destruct (generateAIResponse _ _ _ _ _) as [files' answer]. simpl.
  set (sent := match answer with
               | Ok response => _
               | Throw _ => _
               end).
  assert (Hsent : Forall (λ a, ∃ text ok,
                              a = ClientSend c (msg_from msg) text ok) sent).
  { subst sent. destruct answer as [response|e].
    - destruct (Js.truthy response); [|constructor].
      unfold sendOrFallback. destruct (sendOk env _ response);
        repeat constructor; eauto.
    - repeat constructor; eauto. }
  repeat split; try reflexivity.
  - intros mobile text Hin. apply elem_of_cons in Hin as [Heq|Hin];
      [discriminate|].
    rewrite Forall_forall in Hsent. destruct (Hsent _ Hin) as (t & o & Heq).
    discriminate.
  - exists sent. split; [reflexivity | exact Hsent].
Qed.

Lemma setprompt_from_non_owner_is_relayed_witness :
  let env := RouterEnv (AiEnv true (fun _ _ _ => Ok "No.") true true)
                       true (fun _ _ => true) in
  let c := Client "911" 0 in
  let msg := Inbound "4420@c.us" ".setprompt Be rude" in
  let w := World ∅ ∅ (Store ∅ (Some (PromptData "Be helpful."))) in
  let result := onMessage env c "911" msg w in
  prompts result.1 = prompts w
  ∧ ∃ sent, result.2 = AiRelayCall "setprompt Be rude" "4420" :: sent.
Proof.
  intros env c msg w result.
  destruct (setprompt_from_non_owner_is_relayed env c "911" msg w)
    as (Hprompts & _ & _ & _ & sent & Htrace & _);
    [reflexivity | reflexivity | discriminate |].
  split; [exact Hprompts|]. exists sent. exact Htrace.
Defined.

(** ** Registry: what an operation touches *)

(** Names the state left by the [removeSession] of a [catch] block. *)
Ltac torn_down :=
  let w' := fresh "w'" in
  let torn := fresh "torn" in
  let E := fresh "E" in
  destruct (removeSession _ _ _) as [w' torn] eqn:E; simpl;
  change w' with (w', torn).1; rewrite <- E.

Lemma updateSessionState_other (k j : string) (p : sessionState)
    (reg : gmap string sessionState) :
  k ≠ j → updateSessionState k p reg !! j = reg !! j.
Proof.
  intros Hne. unfold updateSessionState.
  destruct (reg !! k); rewrite lookup_insert_ne; done.
Qed.

Lemma updateSessionState_lookup (k : string) (p : sessionState)
    (reg : gmap string sessionState) :
  updateSessionState k p reg !! k =
  Some (match reg !! k with
        | Some old => spread old p
        | None => p
        end).
Proof.
  unfold updateSessionState.
  destruct (reg !! k); rewrite lookup_insert_eq; reflexivity.
Qed.

Lemma onEvent_other (o : origin) (k j : string) (c : clientRef) (ev : event)
    (reg : gmap string sessionState) :
  k ≠ j → onEvent o k c ev reg !! j = reg !! j.
Proof.
  intros Hne. destruct ev, o; simpl;
    try reflexivity; apply updateSessionState_other; exact Hne.
Qed.

Lemma onEvents_other (o : origin) (k j : string) (c : clientRef)
    (evs : list event) (reg : gmap string sessionState) :
  k ≠ j → onEvents o k c evs reg !! j = reg !! j.
Proof.
  intros Hne. unfold onEvents. revert reg.
  induction evs as [|ev evs IH]; intros reg; simpl; [reflexivity|].
  rewrite IH. apply onEvent_other. exact Hne.
Qed.

Lemma removeSession_clients (env : teardownEnv) (k : string) (w : world) :
  clients (removeSession env k w).1 = delete k (clients w).
Proof.
  unfold removeSession.
  destruct (clients w !! k) as [s|]; [|reflexivity].
  destruct (aiHandler s) as [[[]|]|]; reflexivity.
Qed.

Lemma removeSession_prompts (env : teardownEnv) (k : string) (w : world) :
  prompts (removeSession env k w).1 = prompts w.
Proof.
  unfold removeSession.
  destruct (clients w !! k) as [s|]; [|reflexivity].
  destruct (aiHandler s) as [[[]|]|]; reflexivity.
Qed.

(** [createOrReuseSession] reads and writes the entry of its own identity
    only. *)
Lemma createOrReuseSession_other (MAX_SESSIONS : Z) (env : createEnv)
    (now : Z) (mobile j : string) (w : world) :
  Js.digitsOnly mobile ≠ j →
  clients (createOrReuseSession MAX_SESSIONS env now mobile w).1.1 !! j
  = clients w !! j.
Proof.
  intros Hne. unfold createOrReuseSession. cbv zeta.
  set (k := Js.digitsOnly mobile) in *.
  destruct (_ && negb _); [reflexivity|].
  destruct (_ && (_ || _)); [apply updateSessionState_other; exact Hne|].
  destruct (_ && _); [reflexivity|].
  destruct (match clients w !! k with
            | Some s => hasStatus s "initializing"
            | None => false
            end); [reflexivity|].
  destruct (initializeResult env) as [[]|e1].
  - destruct (pairingResult env) as [pairingCode|e2].
    + simpl. rewrite updateSessionState_other by exact Hne.
      rewrite onEvents_other by exact Hne.
      rewrite updateSessionState_other by exact Hne.
      apply onEvents_other. exact Hne.
    + torn_down.
      rewrite removeSession_clients, lookup_delete_ne by exact Hne. simpl.
      rewrite onEvents_other by exact Hne.
      rewrite updateSessionState_other by exact Hne.
      apply onEvents_other. exact Hne.
  - torn_down.
    rewrite removeSession_clients, lookup_delete_ne by exact Hne. simpl.
    apply onEvents_other. exact Hne.
Qed.

(** ** Capacity *)

(** The gate of [createOrReuseSession]: an identity without an entry is
    refused when the registry holds [MAX_SESSIONS] entries or more; the
    answer is 429, the state is unchanged and nothing is called. The test
    and the answer are in one synchronous stretch of the function. *)
Lemma createOrReuseSession_refused
    (MAX_SESSIONS : Z) (env : createEnv) (now : Z) (mobile : string)
    (w : world) :
  clients w !! Js.digitsOnly mobile = None →
  MAX_SESSIONS ≤ Z.of_nat (size (clients w)) →
  createOrReuseSession MAX_SESSIONS env now mobile w
  = (w, Reply 429 "Maximum number of sessions reached." None, []).
Proof.
  intros Hnone Hfull. unfold createOrReuseSession. cbv zeta. rewrite Hnone.
  rewrite (proj2 (Z.leb_le _ _) Hfull).
  rewrite bool_decide_eq_false_2 by (intros [s Hs]; discriminate).
  reflexivity.
Qed.

(** C1 at a concrete run: with a maximum of 1 and the folders [session-1]
    and [session-2] in the sessions directory, [loadExistingSessions]
    registers both identities, so the registry holds two sessions; the
    create request for a third identity that follows is refused with 429
    by the gate that the recovery does not have. *)
Lemma loadExistingSessions_exceeds_maximum :
  let folders := [("session-1", RecoverEnv 0 1 (Ok tt) [] allOk);
                  ("session-2", RecoverEnv 1 2 (Ok tt) [] allOk)] in
  let w := (loadExistingSessions folders (initial ∅ noPrompts)).1 in
  reachable 1 w
  ∧ size (clients w) = 2%nat
  ∧ (clients w !! "1") ≫= status = Some "initializing"
  ∧ (clients w !! "2") ≫= status = Some "initializing"
  ∧ createOrReuseSession 1 (pairedWith 2 "ABCD-1234") 3 "3" w
    = (w, Reply 429 "Maximum number of sessions reached." None, []).
Proof.
  intros folders w. split.
  - exists ∅, noPrompts, [OpLoad folders]. reflexivity.
  - split; [reflexivity|]. split; [reflexivity|]. split; [reflexivity|].
    apply createOrReuseSession_refused; [reflexivity|].
    vm_compute. discriminate.
Qed.

(** ** Invariant of the registry *)

Lemma patchOk_entryOk (p : sessionState) : patchOk p → entryOk p.
Proof.
  intros [[[c Hc]|Hpairing] Hai]; split; try exact Hai.
  - rewrite Hc. discriminate.
  - intros _. exact Hpairing.
Qed.

Lemma spread_entryOk (old p : sessionState) :
  entryOk old → patchOk p → entryOk (spread old p).
Proof.
  intros [Hold Hoai] [Hp Hpai]. split; simpl.
  - destruct (client p) as [c|] eqn:Hc; simpl; [discriminate|].
    intros _. destruct Hp as [[c Hc']|Hpairing]; [discriminate|].
    rewrite Hpairing. reflexivity.
  - destruct (aiHandler p) as [h|]; simpl; [exact Hpai | exact Hoai].
Qed.

Lemma updateSessionState_ok (k : string) (p : sessionState)
    (reg : gmap string sessionState) :
  registryOk reg → patchOk p → registryOk (updateSessionState k p reg).
Proof.
  intros Hreg Hp. unfold updateSessionState.
  destruct (reg !! k) as [old|] eqn:Hk; apply map_Forall_insert_2;
    try exact Hreg.
  - apply spread_entryOk; [|exact Hp]. exact (Hreg k old Hk).
  - apply patchOk_entryOk. exact Hp.
Qed.

Lemma touch_ok (k : string) (now : Z) (reg : gmap string sessionState) :
  is_Some (reg !! k) →
  registryOk reg →
  registryOk (updateSessionState k
                (SessionState None None None (Some now) None None) reg).
Proof.
  intros [old Hk] Hreg. unfold updateSessionState. rewrite Hk.
  apply map_Forall_insert_2; [|exact Hreg].
  destruct (Hreg k old Hk) as [Hc Hai]. split; simpl; assumption.
Qed.

Lemma onEvent_ok (o : origin) (k : string) (c : clientRef) (ev : event)
    (reg : gmap string sessionState) :
  registryOk reg → registryOk (onEvent o k c ev reg).
Proof.
  intros Hreg. destruct ev, o; simpl; try exact Hreg;
    apply updateSessionState_ok; try exact Hreg;
    (split; simpl; [eauto | discriminate]).
Qed.

Lemma onEvents_ok (o : origin) (k : string) (c : clientRef)
    (evs : list event) (reg : gmap string sessionState) :
  registryOk reg → registryOk (onEvents o k c evs reg).
Proof.
  unfold onEvents. revert reg.
  induction evs as [|ev evs IH]; intros reg Hreg; simpl; [exact Hreg|].
  apply IH, onEvent_ok, Hreg.
Qed.

Lemma initializingState_ok (c : clientRef) (now : Z) :
  patchOk (initializingState c now).
Proof. split; simpl; [eauto | discriminate]. Qed.

Lemma removeSession_ok (env : teardownEnv) (k : string) (w : world) :
  registryOk (clients w) → registryOk (clients (removeSession env k w).1).
Proof.
  intros Hreg. rewrite removeSession_clients.
  apply map_Forall_delete. exact Hreg.
Qed.

Section Reachable.

(** The configured maximum, shared by the runs below. *)
Variable MAX_SESSIONS : Z.

(** The [try] block of [createOrReuseSession]: the registry it leaves. *)
Ltac creation_ok Hreg :=
  destruct (initializeResult _) as [[]|?];
  [ destruct (pairingResult _) as [?|?];
    [ simpl; apply updateSessionState_ok;
      [|split; simpl; [right; reflexivity | discriminate]]
    | torn_down; apply removeSession_ok; simpl ];
    (apply onEvents_ok, updateSessionState_ok;
     [|apply initializingState_ok]);
    apply onEvents_ok, Hreg
  | torn_down; apply removeSession_ok; simpl; apply onEvents_ok, Hreg ].

Lemma createOrReuseSession_ok (env : createEnv) (now : Z)
    (mobile : string) (w : world) :
  registryOk (clients w) →
  registryOk (clients (createOrReuseSession MAX_SESSIONS env now mobile w).1.1).
Proof.
  intros Hreg. unfold createOrReuseSession. cbv zeta.
  set (k := Js.digitsOnly mobile) in *.
  destruct (_ && negb _); [exact Hreg|].
  destruct (clients w !! k) as [s|] eqn:Hk.
  - destruct (_ && (_ || _)).
    { simpl. apply touch_ok; [rewrite Hk; eauto | exact Hreg]. }
    destruct (_ && _); [exact Hreg|].
    destruct (hasStatus s "initializing"); [exact Hreg|].
    creation_ok Hreg.
  - simpl. creation_ok Hreg.
Qed.

Lemma recoverSession_ok (env : recoverEnv) (folder : string) (w : world) :
  registryOk (clients w) →
  registryOk (clients (recoverSession env folder w).1).
Proof.
  intros Hreg. unfold recoverSession.
  destruct (Js.stripPrefix "session-" folder) as [k|]; [|exact Hreg].
  destruct (rec_initializeResult env) as [[]|e].
  - simpl. apply updateSessionState_ok; [|apply initializingState_ok].
    apply onEvents_ok, Hreg.
  - torn_down.
    apply removeSession_ok. simpl. apply onEvents_ok, Hreg.
Qed.

Lemma loadExistingSessions_ok (folders : list (string * recoverEnv))
    (w : world) :
  registryOk (clients w) →
  registryOk (clients (loadExistingSessions folders w).1).
Proof.
  revert w. induction folders as [|[folder env] rest IH]; intros w Hreg;
    simpl; [exact Hreg|].
  pose proof (recoverSession_ok env folder w Hreg) as H1.
  destruct (recoverSession env folder w) as [w1 t1]. simpl in H1.
  specialize (IH w1 H1).
  destruct (loadExistingSessions rest w1) as [w2 t2]. exact IH.
Qed.

Lemma onMessage_clients (env : routerEnv) (c : clientRef) (owner : string)
    (msg : inbound) (w : world) :
  clients (onMessage env c owner msg w).1 = clients w.
Proof.
  unfold onMessage. cbv zeta.
  destruct (negb _); [reflexivity|].
  destruct (_ && _).
  - destruct (Js.truthy _); [|reflexivity].
    destruct (setPrompt _ _ _ _ _) as [[st' r]|e]; reflexivity.
  - destruct (negb _); [|reflexivity].
    destruct (generateAIResponse _ _ _ _ _) as [files' answer]. reflexivity.
Qed.

Lemma sendMessage_world (ok : bool) (mobile to text : string) (w : world) :
  (sendMessage ok mobile to text w).1.1 = w.
Proof.
  unfold sendMessage. cbv zeta.
  destruct (_ || _); [reflexivity|].
  destruct (clients w !! _) as [s|]; [|reflexivity].
  destruct (client s); [|reflexivity].
  destruct (negb _); [reflexivity|]. destruct ok; reflexivity.
Qed.

Lemma deleteSession_ok (env : teardownEnv) (mobile : string) (w : world) :
  registryOk (clients w) →
  registryOk (clients (deleteSession env mobile w).1.1).
Proof.
  intros Hreg. unfold deleteSession. cbv zeta.
  destruct (clients w !! _); [|exact Hreg].
  torn_down.
  apply removeSession_ok, Hreg.
Qed.

Lemma step_ok (w : world) (o : op) :
  registryOk (clients w) → registryOk (clients (step MAX_SESSIONS w o)).
Proof.
  intros Hreg. destruct o; simpl.
  - apply createOrReuseSession_ok, Hreg.
  - apply loadExistingSessions_ok, Hreg.
  - apply onEvent_ok, Hreg.
  - rewrite onMessage_clients. exact Hreg.
  - rewrite sendMessage_world. exact Hreg.
  - apply deleteSession_ok, Hreg.
  - destruct (setPrompt _ _ _ _ _) as [[st' r]|e]; exact Hreg.
  - exact Hreg.
Qed.

Lemma run_ok (ops : list op) (w : world) :
  registryOk (clients w) → registryOk (clients (run MAX_SESSIONS ops w)).
Proof.
  unfold run. revert w.
  induction ops as [|o ops IH]; intros w Hreg; simpl; [exact Hreg|].
  apply IH, step_ok, Hreg.
Qed.

(** In every state the manager can be in, an entry without a client is in
    pairing state and no entry holds an AI handler. *)
Lemma reachable_ok (w : world) :
  reachable MAX_SESSIONS w → registryOk (clients w).
Proof.
  intros (files & st & ops & ->). apply run_ok. simpl.
  apply map_Forall_empty.
Qed.

End Reachable.

(** ** Re-pairing request for a live session *)

(** C7, as amended: for an identity whose entry has status ['ready'] or
    ['authenticated'], a create request answers 200 and calls nothing; it
    leaves the entry's client, status and pairing code, every other entry,
    the histories and the prompts as they were, and sets the entry's
    [lastActive] to the time of the request. *)
Theorem createOrReuseSession_live_session
    (MAX_SESSIONS : Z) (env : createEnv) (now : Z) (mobile : string)
    (w : world) (s : sessionState) :
  reachable MAX_SESSIONS w →
  clients w !! Js.digitsOnly mobile = Some s →
  status s = Some "ready" ∨ status s = Some "authenticated" →
  let result := createOrReuseSession MAX_SESSIONS env now mobile w in
  code result.1.2 = 200%nat
  ∧ info result.1.2 = Some (SessionInfo true true None None)
  ∧ result.2 = []
  ∧ histories result.1.1 = histories w
  ∧ prompts result.1.1 = prompts w
  ∧ clients result.1.1
    = <[Js.digitsOnly mobile :=
          SessionState (client s) (status s) (pairingCode s) (Some now)
                       (promptManager s) (aiHandler s)]> (clients w).
Proof.
  intros Hreach Hk Hstatus.
  destruct (reachable_ok _ _ Hreach _ _ Hk) as [Hclient _].
  assert (Hc : is_Some (client s)).
  { destruct (client s) as [c|]; [eauto|].
    specialize (Hclient eq_refl).
    destruct Hstatus as [H|H]; rewrite H in Hclient; discriminate. }
  unfold createOrReuseSession. cbv zeta. rewrite Hk.
  rewrite (bool_decide_eq_true_2 (is_Some (Some s))) by eauto.
  rewrite andb_false_r.
  rewrite (bool_decide_eq_true_2 _ Hc).
  assert (Hlive : hasStatus s "ready" || hasStatus s "authenticated" = true).
  { unfold hasStatus. destruct Hstatus as [H|H]; rewrite H; reflexivity. }
  rewrite Hlive. simpl.
  repeat split; try reflexivity.
  unfold updateSessionState. rewrite Hk. unfold spread. simpl. reflexivity.
Qed.

Lemma createOrReuseSession_live_session_witness :
  let w := run 10 readyAndChatting (initial ∅ noPrompts) in
  let result := createOrReuseSession 10 (pairedWith 1 "WXYZ-5678") 100 "911" w in
  code result.1.2 = 200%nat
  ∧ (clients result.1.1 !! "911") ≫= status = Some "ready"
  ∧ (clients result.1.1 !! "911") ≫= lastActive = Some 100.
Proof.
  intros w result.
  destruct (createOrReuseSession_live_session
              10 (pairedWith 1 "WXYZ-5678") 100 "911" w
              (SessionState (Some (Client "911" 0)) (Some "ready") (Some None)
                            (Some 7) (Some tt) (Some None)))
    as (Hcode & _ & _ & _ & _ & Hclients).
  - exists ∅, noPrompts, readyAndChatting. reflexivity.
  - reflexivity.
  - left. reflexivity.
  - split; [exact Hcode|]. subst result. rewrite Hclients.
    rewrite lookup_insert_eq. split; reflexivity.
Defined.

(** C7, as stated, fails: the request refreshes [lastActive]. Identity 911
    got ready at time 7; a create request at time 100 stores 100. *)
Lemma createOrReuseSession_changes_lastActive :
  ¬ (∀ (MAX_SESSIONS : Z) (env : createEnv) (now : Z) (mobile : string)
       (w : world) (s : sessionState),
       reachable MAX_SESSIONS w →
       clients w !! Js.digitsOnly mobile = Some s →
       status s = Some "ready" ∨ status s = Some "authenticated" →
       clients (createOrReuseSession MAX_SESSIONS env now mobile w).1.1
         !! Js.digitsOnly mobile = Some s).
Proof.
  intros Hsame.
  specialize (Hsame 10 (pairedWith 1 "WXYZ-5678") 100 "911"
                    (run 10 readyAndChatting (initial ∅ noPrompts))
                    (SessionState (Some (Client "911" 0)) (Some "ready")
                                  (Some None) (Some 7) (Some tt) (Some None))).
  assert (Hlast : ∀ o : option sessionState,
             o = Some (SessionState (Some (Client "911" 0)) (Some "ready")
                                    (Some None) (Some 7) (Some tt) (Some None))
             → o ≫= lastActive = Some 7).
  { intros o ->. reflexivity. }
  apply Hlast in Hsame.
  - vm_compute in Hsame. discriminate Hsame.
  - exists ∅, noPrompts, readyAndChatting. reflexivity.
  - reflexivity.
  - left. reflexivity.
Qed.

(** ** Teardown *)

(** [removeSession] clears a history only through an AI handler stored in
    the entry. *)
Lemma removeSession_histories (env : teardownEnv) (k : string) (w : world) :
  (∀ s, clients w !! k = Some s → aiHandler s ≠ Some (Some AiHandlerObj)) →
  histories (removeSession env k w).1 = histories w
  ∧ ∀ ok, ClearHistory k ok ∉ (removeSession env k w).2.
Proof.
  intros Hnone. unfold removeSession.
  destruct (clients w !! k) as [s|] eqn:Hk.
  - specialize (Hnone s eq_refl).
    destruct (aiHandler s) as [[[]|]|]; [congruence| |];
      (split; [reflexivity|]; intros ok Hin;
       destruct (client s); simpl in Hin;
       repeat (apply elem_of_cons in Hin as [Heq|Hin]; [discriminate|]);
       apply elem_of_nil in Hin; exact Hin).
  - split; [reflexivity|]. intros ok Hin. simpl in Hin.
    apply elem_of_cons in Hin as [Heq|Hin]; [discriminate|].
    apply elem_of_nil in Hin. exact Hin.
Qed.

(** No entry ever holds an AI handler, so in every state the manager can be
    in [removeSession] leaves every history file in place. *)
Lemma removeSession_never_clears (MAX_SESSIONS : Z) (env : teardownEnv)
    (k : string) (w : world) :
  reachable MAX_SESSIONS w →
  histories (removeSession env k w).1 = histories w
  ∧ ∀ ok, ClearHistory k ok ∉ (removeSession env k w).2.
Proof.
  intros Hreach. apply removeSession_histories.
  intros s Hk. exact (proj2 (reachable_ok _ _ Hreach _ _ Hk)).
Qed.

(** X20: whatever fails, [removeSession] returns, has asked for the removal
    of the session folder and for the destroy of the client the entry
    holds, and leaves no entry for the identity; and a second call only
    asks again for the removal of the folder. *)
Lemma removeSession_best_effort (env env' : teardownEnv) (k : string)
    (w : world) :
  let first := removeSession env k w in
  let second := removeSession env' k first.1 in
  clients first.1 !! k = None
  ∧ FsRemoveSession k (removeDirOk env) ∈ first.2
  ∧ (∀ s c, clients w !! k = Some s → client s = Some c →
            ClientDestroy c (destroyOk env) ∈ first.2)
  ∧ second = (first.1, [FsRemoveSession k (removeDirOk env')]).
Proof.
  cbv zeta. split; [|split; [|split]].
  - rewrite removeSession_clients. apply lookup_delete_eq.
  - unfold removeSession.
    destruct (clients w !! k) as [s|]; [|simpl; set_solver].
    destruct (aiHandler s) as [[[]|]|]; destruct (client s); simpl; set_solver.
  - intros s c Hk Hc. unfold removeSession. rewrite Hk, Hc.
    destruct (aiHandler s) as [[[]|]|]; simpl; set_solver.
  - pose proof (removeSession_clients env k w) as Hdel.
    destruct (removeSession env k w) as [w1 t1]. simpl in *.
    unfold removeSession. rewrite Hdel, lookup_delete_eq. simpl.
    rewrite delete_delete_eq. destruct w1 as [reg1 h1 p1]. simpl in *.
    rewrite Hdel. reflexivity.
Qed.

(** C3 at a concrete run: identity 911 is ready and has a history of two
    turns; its session is deleted with nothing failing; the entry is gone
    and the history still holds the two turns. *)
Lemma removeSession_leaves_history :
  let w := run 10 readyAndChatting (initial ∅ noPrompts) in
  let after := deleteSession allOk "911" w in
  getHistory (histories w) "911" = [Turn "user" "hi"; Turn "model" "hello"]
  ∧ code after.1.2 = 200%nat
  ∧ clients after.1.1 !! "911" = None
  ∧ getHistory (histories after.1.1) "911"
    = [Turn "user" "hi"; Turn "model" "hello"].
Proof. vm_compute. repeat split; reflexivity. Qed.

(** C5 at a concrete run: for the session of identity 911, created by
    [createOrReuseSession], the calls of [removeSession] are the destroy of
    the client and the removal of the session folder, whether they fail or
    not: the history is not asked to be cleared. *)
Lemma removeSession_skips_clearHistory :
  let w := run 10 readyAndChatting (initial ∅ noPrompts) in
  (removeSession allOk "911" w).2
  = [ClientDestroy (Client "911" 0) true; FsRemoveSession "911" true]
  ∧ (removeSession (TeardownEnv false false false) "911" w).2
    = [ClientDestroy (Client "911" 0) false; FsRemoveSession "911" false].
Proof. vm_compute. split; reflexivity. Qed.

(** ** Pairing code *)

(** A property of entries that every partial state the manager writes
    preserves holds of every entry the manager can store. [entry] is the
    property, [patch] a condition on partial states strong enough to
    carry it through the merge. *)
Section EntryInvariant.

Variable entry patch : sessionState → Prop.

Hypothesis patch_entry : ∀ p, patch p → entry p.
Hypothesis patch_spread : ∀ old p, entry old → patch p → entry (spread old p).
Hypothesis touch_spread :
  ∀ old now, entry old →
             entry (spread old (SessionState None None None (Some now)
                                             None None)).
Hypothesis patch_pairing :
  ∀ pairingCode,
    patch (SessionState None (Some "pairing") (Some (Some pairingCode))
                        None None None).
Hypothesis patch_cleared :
  ∀ c name now,
    patch (SessionState (Some c) (Some name) (Some None) (Some now)
                        None None).
Hypothesis patch_authenticated :
  ∀ c now,
    patch (SessionState (Some c) (Some "authenticated") None (Some now)
                        None None).
Hypothesis patch_initializing : ∀ c now, patch (initializingState c now).

Let holds (reg : gmap string sessionState) : Prop :=
  map_Forall (λ _ s, entry s) reg.

Lemma updateSessionState_holds (k : string) (p : sessionState)
    (reg : gmap string sessionState) :
  holds reg → patch p → holds (updateSessionState k p reg).
Proof.
  intros Hreg Hp. unfold updateSessionState.
  destruct (reg !! k) as [old|] eqn:Hk; apply map_Forall_insert_2;
    try exact Hreg.
  - apply patch_spread; [exact (Hreg k old Hk) | exact Hp].
  - apply patch_entry, Hp.
Qed.

Lemma onEvents_holds (o : origin) (k : string) (c : clientRef)
    (evs : list event) (reg : gmap string sessionState) :
  holds reg → holds (onEvents o k c evs reg).
Proof.
  unfold onEvents. revert reg.
  induction evs as [|ev evs IH]; intros reg Hreg; simpl; [exact Hreg|].
  apply IH. destruct ev, o; simpl; try exact Hreg;
    apply updateSessionState_holds; auto.
Qed.

Lemma removeSession_holds (env : teardownEnv) (k : string) (w : world) :
  holds (clients w) → holds (clients (removeSession env k w).1).
Proof.
  intros Hreg. rewrite removeSession_clients. apply map_Forall_delete, Hreg.
Qed.

Lemma createOrReuseSession_holds (MAX_SESSIONS : Z) (env : createEnv)
    (now : Z) (mobile : string) (w : world) :
  holds (clients w) →
  holds (clients (createOrReuseSession MAX_SESSIONS env now mobile w).1.1).
Proof.
  intros Hreg. unfold createOrReuseSession. cbv zeta.
  set (k := Js.digitsOnly mobile) in *.
  assert (Hcreated :
            ∀ c, holds (onEvents Created k c (duringPairing env)
                          (updateSessionState k (initializingState c now)
                             (onEvents Created k c (duringInitialize env)
                                       (clients w))))).
  { intros c. apply onEvents_holds, updateSessionState_holds; [|auto].
    apply onEvents_holds, Hreg. }
  match goal with
  | |- context [if ?b then (_, Reply 429 _ _, _) else _] => destruct b
  end; [exact Hreg|].
  match goal with
  | |- context [if ?b then (withClients _ _, _, _) else _] =>
      destruct b eqn:Hlive
  end.
  { simpl. unfold updateSessionState.
    destruct (clients w !! k) as [old|] eqn:Hk; [|discriminate Hlive].
    apply map_Forall_insert_2; [|exact Hreg].
    apply touch_spread. exact (Hreg k old Hk). }
  repeat match goal with
         | |- context [if ?b then (_, Reply 200 _ _, _) else _] =>
             destruct b; [exact Hreg|]
         end.
  destruct (initializeResult env) as [[]|e1].
  - destruct (pairingResult env) as [pairingCode|e2].
    + simpl. apply updateSessionState_holds; [apply Hcreated | auto].
    + torn_down. apply removeSession_holds. simpl. apply Hcreated.
  - torn_down. apply removeSession_holds. simpl. apply onEvents_holds, Hreg.
Qed.

Lemma loadExistingSessions_holds (folders : list (string * recoverEnv))
    (w : world) :
  holds (clients w) → holds (clients (loadExistingSessions folders w).1).
Proof.
  revert w. induction folders as [|[folder env] rest IH]; intros w Hreg;
    simpl; [exact Hreg|].
  assert (H1 : holds (clients (recoverSession env folder w).1)).
  { unfold recoverSession.
    destruct (Js.stripPrefix "session-" folder) as [k|]; [|exact Hreg].
    destruct (rec_initializeResult env) as [[]|e].
    - simpl. apply updateSessionState_holds; [|auto].
      apply onEvents_holds, Hreg.
    - torn_down. apply removeSession_holds. simpl.
      apply onEvents_holds, Hreg. }
  destruct (recoverSession env folder w) as [w1 t1]. simpl in H1.
  specialize (IH w1 H1).
  destruct (loadExistingSessions rest w1) as [w2 t2]. exact IH.
Qed.

Lemma step_holds (MAX_SESSIONS : Z) (w : world) (o : op) :
  holds (clients w) → holds (clients (step MAX_SESSIONS w o)).
Proof.
  intros Hreg. destruct o; simpl.
  - apply createOrReuseSession_holds, Hreg.
  - apply loadExistingSessions_holds, Hreg.
  - apply (onEvents_holds o mobileNumber c [ev]), Hreg.
  - rewrite onMessage_clients. exact Hreg.
  - rewrite sendMessage_world. exact Hreg.
  - unfold deleteSession. cbv zeta.
    destruct (clients w !! _); [|exact Hreg].
    torn_down. apply removeSession_holds, Hreg.
  - destruct (setPrompt _ _ _ _ _) as [[st' r]|e]; exact Hreg.
  - exact Hreg.
Qed.

Lemma reachable_holds (MAX_SESSIONS : Z) (w : world) :
  reachable MAX_SESSIONS w → holds (clients w).
Proof.
  intros (files & st & ops & ->). unfold run.
  assert (Hstart : holds (clients (initial files st)))
    by apply map_Forall_empty.
  revert Hstart. generalize (initial files st).
  induction ops as [|o ops IH]; intros w Hreg; simpl; [exact Hreg|].
  apply IH, step_holds, Hreg.
Qed.

End EntryInvariant.

(** What the code does keep of the pairing code: in every state the
    manager can be in, an entry that stores a pairing code has status
    ['pairing'] or ['authenticated']. *)
Lemma stored_code_status (MAX_SESSIONS : Z) (w : world) (k : string)
    (s : sessionState) :
  reachable MAX_SESSIONS w →
  clients w !! k = Some s →
  codeOf s ≠ None →
  status s = Some "pairing" ∨ status s = Some "authenticated".
Proof.
  intros Hreach Hk.
  refine (reachable_holds
            (λ s, codeOf s ≠ None →
                  status s = Some "pairing" ∨ status s = Some "authenticated")
            (λ p, pairingCode p = Some None
                  ∨ status p = Some "pairing"
                  ∨ status p = Some "authenticated")
            _ _ _ _ _ _ _ MAX_SESSIONS w Hreach k s Hk).
  - intros p [Hnull|[Hs|Hs]] Hcode; [|eauto..].
    unfold codeOf in Hcode. rewrite Hnull in Hcode. contradiction.
  - intros old p Hold [Hnull|[Hs|Hs]] Hcode.
    + unfold codeOf, spread in Hcode. simpl in Hcode.
      rewrite Hnull in Hcode. contradiction.
    + left. simpl. rewrite Hs. reflexivity.
    + right. simpl. rewrite Hs. reflexivity.
  - intros old now Hold. exact Hold.
  - intros pairingCode. right. left. reflexivity.
  - intros c name now. left. reflexivity.
  - intros c now. right. right. reflexivity.
  - intros c now. left. reflexivity.
Qed.

(** C8 at a concrete run: identity 911 pairs with the code ABCD-1234 and is
    then authenticated. Its entry has status ['authenticated'] and still
    stores the code, which [getSessionStatus] does not report; the ready
    callback that follows stores a null pairing code. *)
Lemma authenticated_keeps_pairingCode :
  let w := run 10 [OpCreate (pairedWith 0 "ABCD-1234") 5 "911";
                   OpEvent Created "911" (Client "911" 0) (EvAuthenticated 6)]
               (initial ∅ noPrompts) in
  clients w !! "911"
  = Some (SessionState (Some (Client "911" 0)) (Some "authenticated")
                       (Some (Some "ABCD-1234")) (Some 6) (Some tt)
                       (Some None))
  ∧ getSessionStatus "911" w
    = Reply 200 EmptyString
            (Some (SessionInfo true false None (Some "authenticated")))
  ∧ (onEvent Created "911" (Client "911" 0) (EvReady 7) (clients w) !! "911")
      ≫= pairingCode = Some None.
Proof. vm_compute. repeat split; reflexivity. Qed.

(** ** The string primitives and the scenarios of the specification, run *)

Example split_keeps_empty_parts :
  Js.split " " "setprompt  Be terse" = ["setprompt"; EmptyString; "Be"; "terse"]
  ∧ Js.split " " EmptyString = [EmptyString]
  ∧ Js.split "@" "911@c.us" = ["911"; "c.us"].
Proof. repeat split; reflexivity. Qed.

Example trim_both_ends :
  Js.trim "  Be  terse " = "Be  terse" ∧ Js.trim "   " = EmptyString.
Proof. split; reflexivity. Qed.

Example digitsOnly_drops_the_rest : Js.digitsOnly "+91 (98) 7-6" = "919876".
Proof. reflexivity. Qed.

(** Scenario A: with room for one session, the first identity reaches
    pairing with its code and the second is refused. *)
Example scenario_capacity :
  let first := createOrReuseSession 1 (pairedWith 0 "ABCD-1234") 5 "1"
                                    (initial ∅ noPrompts) in
  let second := createOrReuseSession 1 (pairedWith 1 "WXYZ-5678") 6 "2"
                                     first.1.1 in
  code first.1.2 = 201%nat
  ∧ getSessionStatus "1" first.1.1
    = Reply 200 EmptyString (Some (SessionInfo true false (Some "ABCD-1234")
                                      (Some "pairing")))
  ∧ code second.1.2 = 429%nat
  ∧ second.1.1 = first.1.1.
Proof. vm_compute. repeat split; reflexivity. Qed.

(** Scenario B: a ready session answers [.hello] from the default prompt
    and the sender's history then holds the user turn and the model turn. *)
Example scenario_first_reply :
  let w := run 10 [OpCreate (pairedWith 0 "ABCD-1234") 5 "1";
                   OpEvent Created "1" (Client "1" 0) (EvAuthenticated 6);
                   OpEvent Created "1" (Client "1" 0) (EvReady 7)]
               (initial ∅ noPrompts) in
  let result := onMessage (answering "hi there") (Client "1" 0) "1"
                          (Inbound "1@c.us" ".hello") w in
  result.2 = [AiRelayCall "hello" "1";
              ClientSend (Client "1" 0) "1@c.us" "hi there" true]
  ∧ getHistory (histories result.1) "1"
    = [Turn "user" "hello"; Turn "model" "hi there"].
Proof. vm_compute. split; reflexivity. Qed.

(** Scenario C: [.setprompt Be terse] from the owner replaces the owner's
    prompt, which the next AI call resolves. *)
Example scenario_owner_sets_prompt :
  let w := World ∅ ∅ noPrompts in
  let result := onMessage (answering "ok") (Client "1" 0) "1"
                          (Inbound "1@c.us" ".setprompt Be terse") w in
  result.2 = [SetPromptCall "1" "Be terse";
              ClientSend (Client "1" 0) "1@c.us" promptUpdated true]
  ∧ getPromptByMobile (prompts result.1) "1" = Ok (PromptData "Be terse").
Proof. vm_compute. split; reflexivity. Qed.

(** Scenario D: an authentication failure while pairing is recorded in the
    entry, which stays in the registry. *)
Example scenario_auth_failure :
  let w := run 10 [OpCreate (pairedWith 0 "ABCD-1234") 5 "1";
                   OpEvent Created "1" (Client "1" 0) (EvAuthFailure 6)]
               (initial ∅ noPrompts) in
  getSessionStatus "1" w
  = Reply 200 EmptyString (Some (SessionInfo true false None (Some "unauthenticated"))).
Proof. vm_compute. reflexivity. Qed.

(** * Further properties of the code *)

Import Validation App PromptFiles AiHandlerReads Concerns Text.

(** ** Identity normalisation *)

Lemma digitsOnly_allDigits (s : string) : allDigits (Js.digitsOnly s) = true.
Proof.
  induction s as [|c r IH]; simpl; [reflexivity|].
  destruct (Js.isDigit c) eqn:Hc; simpl; [rewrite Hc|]; exact IH.
Qed.

Lemma allDigits_digitsOnly (s : string) :
  allDigits s = true → Js.digitsOnly s = s.
Proof.
  induction s as [|c r IH]; simpl; [reflexivity|].
  intros [Hc Hr]%andb_true_iff. rewrite Hc, (IH Hr). reflexivity.
Qed.

(** X1: [mobile.replace(/\D/g, '')] keeps digits only and is idempotent,
    and a mobile accepted by [validateMobileParam] is its own key: it is
    not empty and the normalisation leaves it as it is. *)
Theorem digitsOnly_normalises (s : string) :
  allDigits (Js.digitsOnly s) = true
  ∧ Js.digitsOnly (Js.digitsOnly s) = Js.digitsOnly s
  ∧ (mobileSchema s = true → Js.digitsOnly s = s ∧ s ≠ EmptyString).
Proof.
  split; [apply digitsOnly_allDigits|]. split.
  - apply allDigits_digitsOnly, digitsOnly_allDigits.
  - unfold mobileSchema. intros [Hne Hd]%andb_true_iff. split.
    + apply allDigits_digitsOnly, Hd.
    + intros ->. discriminate Hne.
Qed.

Lemma digitsOnly_normalises_witness :
  Js.digitsOnly "919876" = "919876" ∧ "919876" ≠ EmptyString.
Proof.
  destruct (digitsOnly_normalises "919876") as (_ & _ & Hvalid).
  apply Hvalid. reflexivity.
Defined.

(** ** Splitting, joining and trimming *)

Lemma join_cons_char (c : ascii) (w : string) (ws : list string) :
  Js.join (String c w :: ws) = String c (Js.join (w :: ws)).
Proof. destruct ws; reflexivity. Qed.

Lemma split_not_nil (sep : ascii) (s : string) : Js.split sep s ≠ [].
Proof.
  destruct s as [|c r]; simpl; [discriminate|].
  destruct (Ascii.eqb c sep); [discriminate|].
  destruct (Js.split sep r); discriminate.
Qed.

Lemma join_of_split (s : string) : Js.join (Js.split " " s) = s.
Proof.
  induction s as [|c r IH]; [reflexivity|].
  simpl. destruct (Ascii.eqb c " ") eqn:Hc.
  - apply Ascii.eqb_eq in Hc. subst c.
    pose proof (split_not_nil " " r) as Hne.
    destruct (Js.split " " r) as [|w ws]; [contradiction|].
    change (Js.join (EmptyString :: w :: ws))
      with (EmptyString +:+ " " +:+ Js.join (w :: ws)).
    rewrite IH. reflexivity.
  - pose proof (split_not_nil " " r) as Hne.
    destruct (Js.split " " r) as [|w ws]; [contradiction|].
    rewrite join_cons_char, IH. reflexivity.
Qed.

Lemma split_parts_lack_separator (s : string) :
  Forall (λ part, lacks " " part = true) (Js.split " " s).
Proof.
  induction s as [|c r IH]; simpl; [repeat constructor|].
  destruct (Ascii.eqb c " ") eqn:Hc.
  - constructor; [reflexivity | exact IH].
  - destruct (Js.split " " r) as [|w ws]; [repeat constructor; simpl;
                                            rewrite Hc; reflexivity|].
    apply Forall_cons in IH as [Hw Hws]. constructor; [|exact Hws].
    simpl. rewrite Hc, Hw. reflexivity.
Qed.

(** X2: [command.split(' ')] returns at least one part, no part holds a
    space, and joining the parts with single spaces gives the command
    back: splitting loses nothing, runs of spaces included. *)
Theorem split_join_spec (s : string) :
  Js.split " " s ≠ []
  ∧ Forall (λ part, lacks " " part = true) (Js.split " " s)
  ∧ Js.join (Js.split " " s) = s.
Proof.
  split; [apply split_not_nil|].
  split; [apply split_parts_lack_separator | apply join_of_split].
Qed.

Lemma trimStart_first (s : string) (c : ascii) :
  firstChar (Js.trimStart s) = Some c → Js.isSpace c = false.
Proof.
  induction s as [|d r IH]; simpl; [discriminate|].
  destruct (Js.isSpace d) eqn:Hd; [exact IH|].
  simpl. intros [= <-]. exact Hd.
Qed.

Lemma trimEnd_last (s : string) (c : ascii) :
  lastChar (Js.trimEnd s) = Some c → Js.isSpace c = false.
Proof.
  induction s as [|d r IH]; simpl; [discriminate|].
  destruct (Js.trimEnd r) as [|e r'] eqn:Hr.
  - destruct (Js.isSpace d) eqn:Hd; simpl; [discriminate|].
    intros [= <-]. exact Hd.
  - exact IH.
Qed.

Lemma trimEnd_first (s : string) (c : ascii) :
  firstChar s = Some c → Js.isSpace c = false →
  firstChar (Js.trimEnd s) = Some c.
Proof.
  destruct s as [|d r]; simpl; [discriminate|].
  intros [= ->] Hc. destruct (Js.trimEnd r); [rewrite Hc|]; reflexivity.
Qed.

Lemma trimEnd_fixed (s : string) :
  (∀ c, lastChar s = Some c → Js.isSpace c = false) → Js.trimEnd s = s.
Proof.
  induction s as [|d r IH]; simpl; [reflexivity|].
  intros Hlast. destruct r as [|e r'].
  - simpl. rewrite (Hlast d eq_refl). reflexivity.
  - rewrite (IH Hlast). reflexivity.
Qed.

Lemma trimStart_fixed (s : string) :
  (∀ c, firstChar s = Some c → Js.isSpace c = false) → Js.trimStart s = s.
Proof.
  destruct s as [|d r]; simpl; [reflexivity|].
  intros Hfirst. rewrite (Hfirst d eq_refl). reflexivity.
Qed.

Lemma trimStart_allSpaces (s : string) :
  allSpaces s = true → Js.trimStart s = EmptyString.
Proof.
  induction s as [|d r IH]; simpl; [reflexivity|].
  intros [Hd Hr]%andb_true_iff. rewrite Hd. exact (IH Hr).
Qed.

(** X3: [s.trim()] neither starts nor ends with white space, trimming
    twice is trimming once, and a string of white space trims to the empty
    string. *)
Theorem trim_spec (s : string) :
  (∀ c, firstChar (Js.trim s) = Some c → Js.isSpace c = false)
  ∧ (∀ c, lastChar (Js.trim s) = Some c → Js.isSpace c = false)
  ∧ Js.trim (Js.trim s) = Js.trim s
  ∧ (allSpaces s = true → Js.trim s = EmptyString).
Proof.
  assert (Hfirst : ∀ c, firstChar (Js.trim s) = Some c → Js.isSpace c = false).
  { intros c. unfold Js.trim.
    destruct (Js.trimStart s) as [|d r] eqn:Hs; [discriminate|].
    assert (Hd : Js.isSpace d = false).
    { apply (trimStart_first s). rewrite Hs. reflexivity. }
    rewrite (trimEnd_first (String d r) d eq_refl Hd).
    intros [= <-]. exact Hd. }
  assert (Hlast : ∀ c, lastChar (Js.trim s) = Some c → Js.isSpace c = false).
  { intros c. apply trimEnd_last. }
  split; [exact Hfirst|]. split; [exact Hlast|]. split.
  - unfold Js.trim at 1. rewrite (trimStart_fixed _ Hfirst).
    apply trimEnd_fixed, Hlast.
  - intros Hs. unfold Js.trim. rewrite (trimStart_allSpaces s Hs).
    reflexivity.
Qed.

Lemma trim_spec_witness : Js.trim "   " = EmptyString.
Proof.
  destruct (trim_spec "   ") as (_ & _ & _ & Hspaces).
  apply Hspaces. reflexivity.
Defined.

(** ** History files *)









(** X6: without an API key, or without a non-empty system prompt for the
    identity, the relay throws and leaves every history file as it was. *)
Theorem generateAIResponse_configuration_error
    (env : aiEnv) (st : store) (files : gmap string histFile)
    (userMessage mobileNumber : string) :
  apiKey env = false
  ∨ (∃ e, getPromptByMobile st mobileNumber = Throw e)
  ∨ (∃ data, getPromptByMobile st mobileNumber = Ok data
             ∧ systemPrompt data = EmptyString) →
  let result := generateAIResponse env st files userMessage mobileNumber in
  result.1 = files ∧ ∃ e, result.2 = Throw e.
Proof.
  intros Hconfig. unfold generateAIResponse.
  destruct (apiKey env); simpl; [|eauto].
  destruct Hconfig as [Hkey|[[e He]|(data & Hdata & Hempty)]];
    [discriminate| |].
  - rewrite He. eauto.
  - rewrite Hdata, Hempty. simpl. eauto.
Qed.

Lemma generateAIResponse_configuration_error_witness :
  let env := AiEnv true (fun _ _ _ => Ok "hello") true true in
  let files : gmap string histFile := {[ "911" := HistJson [] ]} in
  let result := generateAIResponse env (Store ∅ None) files "hi" "911" in
  result.1 = files
  ∧ ∃ e, result.2 = Throw e.
Proof.
  intros env files result.
  apply (generateAIResponse_configuration_error
           env (Store ∅ None) files "hi" "911").
  right. left. exists "Prompt not found.". reflexivity.
Defined.

(** X7: [clearHistory] with the file removal succeeding leaves an empty
    history for the identity, on which the next append stores a single
    turn; it never touches another identity's file; and when the removal
    fails the files are as they were. *)
Theorem clearHistory_spec (files : gmap string histFile)
    (mobile r content : string) :
  getHistory (clearHistory true files mobile) mobile = []
  ∧ getHistory
      (addMessageToHistory true (clearHistory true files mobile)
                           mobile r content) mobile
    = [Turn r content]
  ∧ (∀ removeOk other, mobile ≠ other →
       clearHistory removeOk files mobile !! other = files !! other)
  ∧ clearHistory false files mobile = files.
Proof.
  assert (Hempty : getHistory (clearHistory true files mobile) mobile = []).
  { unfold clearHistory, getHistory.
    destruct (files !! mobile) eqn:E.
    - rewrite lookup_delete_eq. reflexivity.
    - rewrite E. reflexivity. }
  split; [exact Hempty|]. split; [|split].
  - rewrite getHistory_addMessageToHistory, Hempty. reflexivity.
  - intros removeOk other Hne. unfold clearHistory.
    destruct (files !! mobile); [|reflexivity].
    destruct removeOk; [|reflexivity].
    apply lookup_delete_ne. exact Hne.
  - unfold clearHistory. destruct (files !! mobile); reflexivity.
Qed.

(** ** Prompt store: errors and isolation *)

(** X8: called by its route, [setPrompt] always answers: 400 exactly for an
    empty prompt, 500 exactly when the file write fails, 200 otherwise. It
    changes the store only when it answers 200, and then only the prompt
    of the normalised identity: the default prompt and the prompts of the
    other identities stay. *)
Theorem setPrompt_answers (writeOk : bool) (mobile text : string) (st : store) :
  ∃ st' r,
    setPrompt writeOk true mobile text st = Ok (st', r)
    ∧ (code_of r = Some 400%nat ↔ text = EmptyString)
    ∧ (code_of r = Some 500%nat ↔ text ≠ EmptyString ∧ writeOk = false)
    ∧ (code_of r = Some 200%nat ↔ text ≠ EmptyString ∧ writeOk = true)
    ∧ (code_of r ≠ Some 200%nat → st' = st)
    ∧ defaultPrompt st' = defaultPrompt st
    ∧ ∀ k, k ≠ Js.digitsOnly mobile →
           customPrompts st' !! k = customPrompts st !! k.
Proof.
  unfold setPrompt. destruct text as [|c r]; simpl.
  - eexists _, _. split; [reflexivity|]. simpl.
    repeat split; try done; try (intros [? ?]; done).
  - destruct writeOk; eexists _, _; (split; [reflexivity|]); simpl.
    + repeat split; try done; try (intros [? ?]; done).
      intros k Hk. rewrite lookup_insert_ne; done.
    + repeat split; try done; try (intros [? ?]; done).
Qed.

(** X9: two spellings of a mobile with the same digits are one identity for
    the prompt store, and identities with different digits do not see each
    other's prompt: after a [setPrompt] that wrote the prompt [P] for
    [mobile], [getPromptByMobile] returns [P] for every spelling with the
    digits of [mobile] and what it returned before for any other. *)
Theorem setPrompt_identity (hasRes : bool) (mobile other P : string)
    (st st' : store) (r : response) :
  P ≠ EmptyString →
  setPrompt true hasRes mobile P st = Ok (st', r) →
  getPromptByMobile st' other
  = if bool_decide (Js.digitsOnly other = Js.digitsOnly mobile)
    then Ok (PromptData P)
    else getPromptByMobile st other.
Proof.
  intros HP. unfold setPrompt.
  destruct P as [|c p]; [contradiction|]. simpl.
  intros [= <- _]. unfold getPromptByMobile. simpl.
  case_bool_decide as Hsame.
  - rewrite Hsame, lookup_insert_eq. reflexivity.
  - rewrite lookup_insert_ne by congruence. reflexivity.
Qed.

Lemma setPrompt_identity_witness :
  let st := Store {[ "4420" := PromptData "Be nice." ]}
                  (Some (PromptData "Be helpful.")) in
  match setPrompt true true "+91 98" "Be terse" st with
  | Ok (st', _) =>
      getPromptByMobile st' "9198" = Ok (PromptData "Be terse")
      ∧ getPromptByMobile st' "4420" = Ok (PromptData "Be nice.")
  | Throw _ => False
  end.
Proof.
  intros st.
  destruct (setPrompt true true "+91 98" "Be terse" st) as [[st' r]|e] eqn:Hset.
  - split.
    + rewrite (setPrompt_identity true "+91 98" "9198" "Be terse" st st' r);
        [reflexivity | discriminate | exact Hset].
    + rewrite (setPrompt_identity true "+91 98" "4420" "Be terse" st st' r);
        [reflexivity | discriminate | exact Hset].
  - vm_compute in Hset. discriminate Hset.
Defined.

(** X10: [deletePrompt] answers 404 and changes nothing when the identity
    has no custom prompt, and 500 with nothing changed when the file
    removal fails; after a delete answered 200 a second delete answers 404
    and changes nothing; no delete touches the default prompt or the
    prompt of another identity. *)
Theorem deletePrompt_answers (removeOk again : bool) (mobile : string)
    (st : store) :
  let first := deletePrompt removeOk mobile st in
  (customPrompts st !! Js.digitsOnly mobile = None →
   first.1 = st ∧ code_of first.2 = Some 404%nat)
  ∧ (code_of first.2 ≠ Some 200%nat → first.1 = st)
  ∧ (code_of first.2 = Some 200%nat →
     deletePrompt again mobile first.1
     = (first.1, Res 404 "No custom prompt found for this mobile number." None))
  ∧ defaultPrompt first.1 = defaultPrompt st
  ∧ ∀ k, k ≠ Js.digitsOnly mobile →
         customPrompts first.1 !! k = customPrompts st !! k.
Proof.
  unfold deletePrompt.
  destruct (customPrompts st !! Js.digitsOnly mobile) as [p|] eqn:Hk.
  - destruct removeOk; simpl.
    + repeat split; try done.
      * intros _. rewrite lookup_delete_eq. reflexivity.
      * intros k Hne. rewrite lookup_delete_ne; done.
    + repeat split; done.
  - simpl. repeat split; done.
Qed.

Lemma deletePrompt_answers_witness :
  let st := Store {[ "911" := PromptData "Be terse" ]}
                  (Some (PromptData "Be helpful.")) in
  let first := deletePrompt true "911" st in
  code_of (deletePrompt true "911" first.1).2 = Some 404%nat
  ∧ code_of (deletePrompt true "4420" st).2 = Some 404%nat.
Proof.
  intros st first.
  destruct (deletePrompt_answers true true "911" st) as (_ & _ & Htwice & _).
  destruct (deletePrompt_answers true true "4420" st) as (Hnone & _).
  split.
  - fold first in Htwice. rewrite Htwice; reflexivity.
  - apply Hnone. reflexivity.
Defined.

(** ** Prompt files: loading at start-up *)

(** X11: [loadDefaultPrompt] assigns to the default prompt whatever the
    read of [default.json] returns, and the fallback text when anything
    throws; it never touches the custom prompts. So the default prompt is
    left null exactly when the files could be ensured and the file holds a
    falsy JSON value; then [getPromptByMobile] throws for every identity
    without a custom prompt, and in every other case it returns a prompt
    for every identity. In a directory without [default.json] the file is
    created with the built-in content, which is the default when it is
    read back. *)
Theorem loadDefaultPrompt_spec (env : filesEnv) (read : defaultRead)
    (disk : gmap string promptFile) (st : store) :
  let loaded := loadDefaultPrompt env read disk st in
  customPrompts loaded.2 = customPrompts st
  ∧ (defaultPrompt loaded.2 = None
     ↔ is_Some (ensurePromptFiles env disk) ∧ read = ReadFalsy)
  ∧ (defaultPrompt loaded.2 = None →
     ∀ mobile, customPrompts st !! Js.digitsOnly mobile = None →
               getPromptByMobile loaded.2 mobile = Throw "Prompt not found.")
  ∧ (defaultPrompt loaded.2 ≠ None →
     ∀ mobile, ∃ prompt, getPromptByMobile loaded.2 mobile = Ok prompt)
  ∧ (ensurePromptFiles env disk = None ∨ read = ReadThrows →
     defaultPrompt loaded.2 = Some fallbackPrompt)
  ∧ (ensureDirOk env = true → writeDefaultOk env = true →
     disk !! DEFAULT_PROMPT_FILE = None →
     loaded.1 !! DEFAULT_PROMPT_FILE = Some (PromptJson defaultContent)
     ∧ (read = ReadPrompt defaultContent →
        defaultPrompt loaded.2 = Some defaultContent)).
Proof.
  cbv zeta.
  assert (Hcustom : customPrompts (loadDefaultPrompt env read disk st).2
                    = customPrompts st).
  { unfold loadDefaultPrompt.
    destruct (ensurePromptFiles env disk); reflexivity. }
  split; [exact Hcustom|]. split; [|split; [|split; [|split]]].
  - unfold loadDefaultPrompt.
    destruct (ensurePromptFiles env disk) as [disk'|]; simpl.
    + destruct read; simpl; split; try discriminate; try done.
      * intros [_ H]. discriminate H.
      * intros [_ H]. discriminate H.
    + split; [discriminate|]. intros [[? H] _]. discriminate H.
  - intros Hnone mobile Hmobile. unfold getPromptByMobile.
    rewrite Hcustom, Hmobile, Hnone. reflexivity.
  - intros Hsome mobile. unfold getPromptByMobile.
    destruct (customPrompts _ !! _); [eauto|].
    destruct (defaultPrompt _); [eauto | contradiction].
  - intros [Hensure| ->]; unfold loadDefaultPrompt.
    + rewrite Hensure. reflexivity.
    + destruct (ensurePromptFiles env disk); reflexivity.
  - intros Hdir Hwrite Hfile. unfold loadDefaultPrompt, ensurePromptFiles.
    rewrite Hdir, Hfile, Hwrite. simpl. rewrite lookup_insert_eq.
    split; [reflexivity|]. intros ->. reflexivity.
Qed.

Lemma loadDefaultPrompt_spec_witness :
  let st := Store {[ "911" := PromptData "Be terse" ]} None in
  let fresh := loadDefaultPrompt (FilesEnv true true)
                                 (ReadPrompt defaultContent) ∅ st in
  let null := loadDefaultPrompt (FilesEnv true true) ReadFalsy ∅ st in
  defaultPrompt fresh.2 = Some defaultContent
  ∧ getPromptByMobile null.2 "4420" = Throw "Prompt not found."
  ∧ getPromptByMobile null.2 "911" = Ok (PromptData "Be terse").
Proof.
  intros st fresh null.
  destruct (loadDefaultPrompt_spec (FilesEnv true true)
                                   (ReadPrompt defaultContent) ∅ st)
    as (_ & _ & _ & _ & _ & Hfresh).
  destruct (loadDefaultPrompt_spec (FilesEnv true true) ReadFalsy ∅ st)
    as (_ & Hnull & Hthrows & _).
  split; [apply Hfresh; reflexivity|]. split; [|reflexivity].
  apply Hthrows; [|reflexivity].
  apply Hnull. split; [eexists; reflexivity | reflexivity].
Defined.















(** X13: [getPromptByMobile] looks prompts up under digits only, so a prompt
    stored under a key with another character in it (a file [abc.json] or
    [+911.json] read by [loadCustomPrompts]) is never returned. *)
Theorem prompt_under_other_key_unreachable (k mobile : string)
    (p : promptData) (st : store) :
  allDigits k = false →
  getPromptByMobile (Store (<[k := p]> (customPrompts st)) (defaultPrompt st))
                    mobile
  = getPromptByMobile st mobile.
Proof.
  intros Hk. unfold getPromptByMobile. simpl.
  rewrite lookup_insert_ne; [reflexivity|].
  intros ->. rewrite digitsOnly_allDigits in Hk. discriminate Hk.
Qed.

Lemma prompt_under_other_key_unreachable_witness :
  let disk : gmap string promptFile :=
    {[ "+911.json" := PromptJson (PromptData "Be rude.") ]} in
  let st := Store ∅ (Some (PromptData "Be helpful.")) in
  let loaded := loadCustomPrompts (FilesEnv true true) (Some ["+911.json"])
                                  disk st in
  customPrompts loaded.2 !! "+911" = Some (PromptData "Be rude.")
  ∧ getPromptByMobile loaded.2 "+911" = Ok (PromptData "Be helpful.").
Proof.
  intros disk st loaded. split; [reflexivity|].
  change loaded.2
    with (Store (<["+911" := PromptData "Be rude."]> (customPrompts st))
                (defaultPrompt st)).
  rewrite (prompt_under_other_key_unreachable "+911" "+911"); reflexivity.
Defined.

(** ** Registry updates *)

Lemma over_assoc {A : Type} (a b c : option A) :
  over c (over b a) = over (over c b) a.
Proof. destruct c, b; reflexivity. Qed.

Lemma spread_assoc (old p q : sessionState) :
  spread (spread old p) q = spread old (spread p q).
Proof. unfold spread. simpl. rewrite !over_assoc. reflexivity. Qed.

Lemma spread_self (p : sessionState) : spread p p = p.
Proof.
  destruct p as [c s pc la pm ai]. unfold spread. simpl.
  destruct c, s, pc, la, pm, ai; reflexivity.
Qed.

Lemma updateSessionState_size (k : string) (p : sessionState)
    (reg : gmap string sessionState) :
  (size reg ≤ size (updateSessionState k p reg) ≤ S (size reg))%nat.
Proof.
  unfold updateSessionState. destruct (reg !! k) as [old|] eqn:Hk.
  - rewrite map_size_insert_Some by eauto. lia.
  - rewrite map_size_insert_None by exact Hk. lia.
Qed.

(** X14: [updateSessionState] is a shallow merge: two updates of an
    identity in a row are one update with the merged partial state
    (whether or not the identity had an entry), so repeating an update
    changes nothing; an update never removes an entry, adds at most the
    entry of its identity, and leaves the other entries as they were. *)
Theorem updateSessionState_merge (k : string) (p q : sessionState)
    (reg : gmap string sessionState) :
  updateSessionState k q (updateSessionState k p reg)
  = updateSessionState k (spread p q) reg
  ∧ updateSessionState k p (updateSessionState k p reg)
    = updateSessionState k p reg
  ∧ (size reg ≤ size (updateSessionState k p reg) ≤ S (size reg))%nat
  ∧ ∀ j, k ≠ j → updateSessionState k p reg !! j = reg !! j.
Proof.
  assert (Hcompose : ∀ p q,
             updateSessionState k q (updateSessionState k p reg)
             = updateSessionState k (spread p q) reg).
  { intros p' q'. unfold updateSessionState at 1.
    rewrite updateSessionState_lookup. unfold updateSessionState.
    destruct (reg !! k) as [old|]; rewrite insert_insert_eq;
      [rewrite spread_assoc|]; reflexivity. }
  split; [apply Hcompose|]. split; [|split].
  - rewrite Hcompose, spread_self. reflexivity.
  - apply updateSessionState_size.
  - intros j Hne. apply updateSessionState_other. exact Hne.
Qed.

(** X15: callbacks of the transport never drop a session. Whatever the
    event, every identity with an entry keeps one and the registry grows by
    one entry at most; an authentication failure or a disconnect is
    recorded in the entry of the identity, which keeps the client and
    stores a null pairing code. *)
Theorem onEvent_keeps_sessions (o : origin) (k : string) (c : clientRef)
    (ev : event) (reg : gmap string sessionState) :
  (∀ j, is_Some (reg !! j) → is_Some (onEvent o k c ev reg !! j))
  ∧ (size reg ≤ size (onEvent o k c ev reg) ≤ S (size reg))%nat
  ∧ (∀ now name,
       (ev = EvAuthFailure now ∧ name = "unauthenticated")
       ∨ (ev = EvDisconnected now ∧ name = "disconnected") →
       ∃ s, onEvent o k c ev reg !! k = Some s
            ∧ status s = Some name
            ∧ client s = Some c
            ∧ pairingCode s = Some None
            ∧ lastActive s = Some now).
Proof.
  split; [|split].
  - intros j Hj. destruct (decide (k = j)) as [->|Hne].
    + destruct ev, o; simpl; try exact Hj;
        rewrite updateSessionState_lookup; eauto.
    + rewrite onEvent_other by exact Hne. exact Hj.
  - destruct ev, o; simpl; try lia; apply updateSessionState_size.
  - intros now name [[-> ->]|[-> ->]]; simpl;
      rewrite updateSessionState_lookup;
      (eexists; split; [reflexivity|]);
      destruct (reg !! k); simpl; done.
Qed.

Lemma onEvent_keeps_sessions_witness :
  let reg := clients (run 10 [OpCreate (pairedWith 0 "ABCD-1234") 5 "911"]
                          (initial ∅ noPrompts)) in
  ∃ s, onEvent Created "911" (Client "911" 0) (EvAuthFailure 6) reg !! "911"
       = Some s
       ∧ status s = Some "unauthenticated"
       ∧ client s = Some (Client "911" 0).
Proof.
  intros reg.
  destruct (onEvent_keeps_sessions Created "911" (Client "911" 0)
                                   (EvAuthFailure 6) reg) as (_ & _ & Hfail).
  destruct (Hfail 6 "unauthenticated") as (s & Hs & Hstatus & Hclient & _).
  - left. split; reflexivity.
  - exists s. done.
Defined.

(** ** Create requests *)

(** The seven ways through [createOrReuseSession]: refused, live, pairing,
    initializing, created, pairing code refused, initialization failed. *)
Ltac create_cases :=
  unfold createOrReuseSession; cbv zeta;
  repeat match goal with
         | |- context [if ?b then (_, Reply _ _ _, _) else _] => destruct b
         end;
  try (destruct (initializeResult _) as [[]|?] eqn:?Hi;
       [destruct (pairingResult _) as [?|?] eqn:?Hp|]).

Lemma removeSession_histories_ok (env : teardownEnv) (k : string) (w : world) :
  registryOk (clients w) → histories (removeSession env k w).1 = histories w.
Proof.
  intros Hreg. apply removeSession_histories.
  intros s Hk. exact (proj2 (Hreg k s Hk)).
Qed.

Lemma removeSession_asks_folder (env : teardownEnv) (k : string) (w : world) :
  FsRemoveSession k (removeDirOk env) ∈ (removeSession env k w).2.
Proof.
  unfold removeSession.
  destruct (clients w !! k) as [s|]; [|simpl; set_solver].
  destruct (aiHandler s) as [[[]|]|]; destruct (client s); simpl; set_solver.
Qed.

Lemma createOrReuseSession_stores (MAX_SESSIONS : Z) (env : createEnv)
    (now : Z) (mobile : string) (w : world) :
  registryOk (clients w) →
  prompts (createOrReuseSession MAX_SESSIONS env now mobile w).1.1 = prompts w
  ∧ histories (createOrReuseSession MAX_SESSIONS env now mobile w).1.1
    = histories w.
Proof.
  intros Hreg. create_cases; try (split; reflexivity).
  - torn_down. rewrite removeSession_prompts, removeSession_histories_ok.
    + split; reflexivity.
    + simpl. apply onEvents_ok, updateSessionState_ok;
        [|apply initializingState_ok]. apply onEvents_ok, Hreg.
  - torn_down. rewrite removeSession_prompts, removeSession_histories_ok.
    + split; reflexivity.
    + simpl. apply onEvents_ok, Hreg.
Qed.

(** X16: a create request is confined to its identity: in every state the
    manager can be in, it leaves the entry of every other identity, every
    history file and the prompt store as they were, whatever the transport
    does during the request. *)
Theorem createOrReuseSession_isolated (MAX_SESSIONS : Z) (env : createEnv)
    (now : Z) (mobile : string) (w : world) :
  reachable MAX_SESSIONS w →
  let result := createOrReuseSession MAX_SESSIONS env now mobile w in
  (∀ j, Js.digitsOnly mobile ≠ j → clients result.1.1 !! j = clients w !! j)
  ∧ histories result.1.1 = histories w
  ∧ prompts result.1.1 = prompts w.
Proof.
  intros Hreach. cbv zeta.
  destruct (createOrReuseSession_stores MAX_SESSIONS env now mobile w
              (reachable_ok _ _ Hreach)) as [Hprompts Hhist].
  split; [|split; assumption].
  intros j Hne. apply createOrReuseSession_other. exact Hne.
Qed.

Lemma createOrReuseSession_isolated_witness :
  let w := run 10 readyAndChatting (initial ∅ noPrompts) in
  let failing := CreateEnv 1 (Throw "no browser") [EvDisconnected 8]
                           (Ok "unused") [] allOk in
  let result := createOrReuseSession 10 failing 9 "4420" w in
  clients result.1.1 !! "911" = clients w !! "911"
  ∧ histories result.1.1 = histories w.
Proof.
  intros w failing result.
  destruct (createOrReuseSession_isolated 10 failing 9 "4420" w)
    as (Hothers & Hhist & _).
  - exists ∅, noPrompts, readyAndChatting. reflexivity.
  - split; [|exact Hhist]. apply Hothers. discriminate.
Defined.

(** X17: what the answer of a create request tells. After a 201 the
    identity is in pairing state with the pairing code of the answer, which
    [getSessionStatus] reports and, when it is not empty, [getPairingCode]
    serves. After a 500 the identity has no entry and the removal of its
    session folder has been asked for. A 429 or a 200 is given without any
    call on a transport client. *)
Theorem createOrReuseSession_outcome (MAX_SESSIONS : Z) (env : createEnv)
    (now : Z) (mobile : string) (w : world) :
  let result := createOrReuseSession MAX_SESSIONS env now mobile w in
  (code result.1.2 = 201%nat →
   ∃ p, pairingResult env = Ok p
        ∧ info result.1.2 = Some (SessionInfo true false (Some p) None)
        ∧ getSessionStatus mobile result.1.1
          = Reply 200 EmptyString
                  (Some (SessionInfo true false (Some p) (Some "pairing")))
        ∧ (p ≠ EmptyString →
           getPairingCode mobile result.1.1
           = Reply 200 EmptyString
                   (Some (SessionInfo true false (Some p) None))))
  ∧ (code result.1.2 = 500%nat →
     clients result.1.1 !! Js.digitsOnly mobile = None
     ∧ FsRemoveSession (Js.digitsOnly mobile) (removeDirOk (teardown env))
         ∈ result.2)
  ∧ (code result.1.2 = 429%nat ∨ code result.1.2 = 200%nat → result.2 = []).
Proof.
  create_cases.
  1-4: (split; [|split]; simpl; [discriminate|discriminate|reflexivity]).
  - split; [|split]; simpl; [|discriminate|intros [|]; discriminate].
    intros _. eexists. split; [reflexivity|]. split; [reflexivity|].
    unfold getSessionStatus, getPairingCode. cbv zeta. simpl.
    rewrite updateSessionState_lookup.
    destruct (onEvents _ _ _ _ _ !! _) as [old|]; simpl.
    + split; [reflexivity|]. intros Hp'. destruct a; [contradiction|].
      reflexivity.
    + split; [reflexivity|]. intros Hp'. destruct a; [contradiction|].
      reflexivity.
  - destruct (removeSession _ _ _) as [w' torn] eqn:E. simpl.
    split; [discriminate|]. split; [|intros [|]; discriminate].
    intros _. pose proof (f_equal fst E) as E1.
    pose proof (f_equal snd E) as E2. cbn [fst snd] in E1, E2.
    subst w' torn. split.
    + rewrite removeSession_clients. apply lookup_delete_eq.
    + do 2 apply list_elem_of_further. apply removeSession_asks_folder.
  - destruct (removeSession _ _ _) as [w' torn] eqn:E. simpl.
    split; [discriminate|]. split; [|intros [|]; discriminate].
    intros _. pose proof (f_equal fst E) as E1.
    pose proof (f_equal snd E) as E2. cbn [fst snd] in E1, E2.
    subst w' torn. split.
    + rewrite removeSession_clients. apply lookup_delete_eq.
    + apply list_elem_of_further. apply removeSession_asks_folder.
Qed.

Lemma createOrReuseSession_outcome_witness :
  let result := createOrReuseSession 10 (pairedWith 0 "ABCD-1234") 5 "+911"
                                     (initial ∅ noPrompts) in
  getPairingCode "911" result.1.1
  = Reply 200 EmptyString
          (Some (SessionInfo true false (Some "ABCD-1234") None)).
Proof.
  intros result.
  destruct (createOrReuseSession_outcome 10 (pairedWith 0 "ABCD-1234") 5
                                         "+911" (initial ∅ noPrompts))
    as (Hcreated & _).
  destruct (Hcreated eq_refl) as (p & Hp & _ & _ & Hserved).
  injection Hp as <-. apply Hserved. discriminate.
Defined.

(** X18: asking again for a session that is pairing or initializing is
    harmless: the request answers 200, calls nothing and leaves the whole
    state as it was; for a session in pairing state the answer carries the
    stored pairing code. *)
Theorem createOrReuseSession_in_progress (MAX_SESSIONS : Z) (env : createEnv)
    (now : Z) (mobile : string) (w : world) (s : sessionState) :
  clients w !! Js.digitsOnly mobile = Some s →
  (is_Some (client s) ∧ status s = Some "pairing")
  ∨ status s = Some "initializing" →
  let result := createOrReuseSession MAX_SESSIONS env now mobile w in
  result.1.1 = w
  ∧ result.2 = []
  ∧ code result.1.2 = 200%nat
  ∧ (status s = Some "pairing" →
     info result.1.2 = Some (SessionInfo true false (codeOf s) None)).
Proof.
  intros Hk Hstatus. unfold createOrReuseSession. cbv zeta. rewrite Hk.
  rewrite (bool_decide_eq_true_2 (is_Some (Some s))) by eauto.
  rewrite andb_false_r. unfold hasStatus.
  destruct Hstatus as [[Hc Hs]|Hs]; rewrite Hs.
  - rewrite (bool_decide_eq_true_2 _ Hc). simpl. done.
  - destruct (bool_decide (is_Some (client s))); simpl; repeat split; try done.
Qed.

Lemma createOrReuseSession_in_progress_witness :
  let w := run 10 [OpCreate (pairedWith 0 "ABCD-1234") 5 "911"]
               (initial ∅ noPrompts) in
  let result := createOrReuseSession 10 (pairedWith 1 "WXYZ-5678") 9 "911" w in
  result.1.1 = w
  ∧ info result.1.2 = Some (SessionInfo true false (Some "ABCD-1234") None).
Proof.
  intros w result.
  destruct (createOrReuseSession_in_progress
              10 (pairedWith 1 "WXYZ-5678") 9 "911" w
              (SessionState (Some (Client "911" 0)) (Some "pairing")
                            (Some (Some "ABCD-1234")) (Some 5) (Some tt)
                            (Some None)))
    as (Hsame & _ & _ & Hcode).
  - reflexivity.
  - left. split; [eauto | reflexivity].
  - split; [exact Hsame|]. apply Hcode. reflexivity.
Defined.

(** ** Invariant of the registry, stated on its entries *)

(** X19: in every state the manager can be in, an entry that holds no
    transport client is in pairing state, and no entry holds an AI handler:
    the [aiHandler] key is missing or null. *)
Theorem registry_entries_invariant (MAX_SESSIONS : Z) (w : world)
    (k : string) (s : sessionState) :
  reachable MAX_SESSIONS w →
  clients w !! k = Some s →
  (client s = None → status s = Some "pairing")
  ∧ (aiHandler s = None ∨ aiHandler s = Some None).
Proof.
  intros Hreach Hk. destruct (reachable_ok _ _ Hreach _ _ Hk) as [Hc Hai].
  split; [exact Hc|]. destruct (aiHandler s) as [[[]|]|]; eauto.
  contradiction.
Qed.

Lemma registry_entries_invariant_witness :
  let w := run 10 [OpLoad [("session-911",
                            RecoverEnv 0 1 (Ok tt) [] allOk)];
                   OpDelete allOk "911";
                   OpEvent Recovered "911" (Client "911" 0)
                           (EvQr (Ok "ABCD-1234"))]
               (initial ∅ noPrompts) in
  let s := SessionState None (Some "pairing") (Some (Some "ABCD-1234"))
                        None None None in
  clients w !! "911" = Some s
  ∧ status s = Some "pairing"
  ∧ (aiHandler s = None ∨ aiHandler s = Some None).
Proof.
  intros w s.
  destruct (registry_entries_invariant 10 w "911" s) as [Hpairing Hai].
  - exists ∅, noPrompts. eexists. reflexivity.
  - reflexivity.
  - split; [reflexivity|]. split; [apply Hpairing; reflexivity | exact Hai].
Defined.

(** ** Deleting sessions *)

Lemma deleteSession_absent (env : teardownEnv) (mobile : string) (w : world) :
  clients w !! Js.digitsOnly mobile = None →
  deleteSession env mobile w = (w, Reply 404 "Session not found." None, []).
Proof. intros Hk. unfold deleteSession. cbv zeta. rewrite Hk. reflexivity. Qed.

Lemma deleteSession_present (env : teardownEnv) (mobile : string) (w : world) :
  is_Some (clients w !! Js.digitsOnly mobile) →
  (deleteSession env mobile w).1.1
  = (removeSession env (Js.digitsOnly mobile) w).1
  ∧ code (deleteSession env mobile w).1.2 = 200%nat
  ∧ (deleteSession env mobile w).2
    = (removeSession env (Js.digitsOnly mobile) w).2.
Proof.
  intros [s Hk]. unfold deleteSession. cbv zeta. rewrite Hk.
  destruct (removeSession _ _ _) as [w' torn]. done.
Qed.

(** X21: [deleteSession] answers 404 for an identity without an entry and
    then changes nothing and calls nothing; for an identity with an entry
    it answers 200, the entry is gone, the removal of the session folder
    has been asked for, and a second delete answers 404; the entries of
    the other identities and the prompt store are never touched. *)
Theorem deleteSession_answers (env again : teardownEnv) (mobile : string)
    (w : world) :
  let k := Js.digitsOnly mobile in
  let first := deleteSession env mobile w in
  (clients w !! k = None →
   first = (w, Reply 404 "Session not found." None, []))
  ∧ (is_Some (clients w !! k) →
     code first.1.2 = 200%nat
     ∧ clients first.1.1 !! k = None
     ∧ FsRemoveSession k (removeDirOk env) ∈ first.2
     ∧ deleteSession again mobile first.1.1
       = (first.1.1, Reply 404 "Session not found." None, []))
  ∧ (∀ j, k ≠ j → clients first.1.1 !! j = clients w !! j)
  ∧ prompts first.1.1 = prompts w.
Proof.
  cbv zeta. split; [apply deleteSession_absent|].
  destruct (clients w !! Js.digitsOnly mobile) as [s|] eqn:Hk.
  - destruct (deleteSession_present env mobile w) as (Hw & Hcode & Htrace);
      [rewrite Hk; eauto|].
    rewrite Hw, Htrace.
    assert (Hgone : clients (removeSession env (Js.digitsOnly mobile) w).1
                      !! Js.digitsOnly mobile = None).
    { rewrite removeSession_clients. apply lookup_delete_eq. }
    split; [|split].
    + intros _. split; [exact Hcode|]. split; [exact Hgone|].
      split; [apply removeSession_asks_folder|].
      apply deleteSession_absent. exact Hgone.
    + intros j Hne. rewrite removeSession_clients.
      apply lookup_delete_ne. exact Hne.
    + apply removeSession_prompts.
  - rewrite (deleteSession_absent env mobile w Hk). simpl.
    split; [intros [? ?]; discriminate|]. split; reflexivity.
Qed.

Lemma deleteSession_answers_witness :
  let w := run 10 readyAndChatting (initial ∅ noPrompts) in
  let first := deleteSession allOk "911" w in
  code first.1.2 = 200%nat
  ∧ code (deleteSession allOk "911" first.1.1).1.2 = 404%nat
  ∧ code (deleteSession allOk "4420" w).1.2 = 404%nat.
Proof.
  intros w first.
  destruct (deleteSession_answers allOk allOk "911" w) as (_ & Hsome & _).
  destruct (deleteSession_answers allOk allOk "4420" w) as (Hnone & _).
  cbv zeta in Hsome, Hnone.
  destruct Hsome as (Hcode & _ & _ & Hagain); [eexists; reflexivity|].
  split; [exact Hcode|]. split.
  - subst first. rewrite Hagain. reflexivity.
  - rewrite Hnone; reflexivity.
Defined.

(** ** Start-up recovery *)

Lemma stripPrefix_app (p s : string) : Js.stripPrefix p (p +:+ s) = Some s.
Proof.
  induction p as [|a p IH]; [destruct s; reflexivity|].
  change (String a p +:+ s) with (String a (p +:+ s)).
  cbn [Js.stripPrefix]. rewrite Ascii.eqb_refl. exact IH.
Qed.

Lemma recoverSession_other (env : recoverEnv) (folder j : string) (w : world) :
  Js.stripPrefix "session-" folder ≠ Some j →
  clients (recoverSession env folder w).1 !! j = clients w !! j.
Proof.
  intros Hj. unfold recoverSession.
  destruct (Js.stripPrefix "session-" folder) as [k|]; [|reflexivity].
  assert (Hne : k ≠ j) by congruence.
  destruct (rec_initializeResult env) as [[]|e].
  - simpl. rewrite updateSessionState_other by exact Hne.
    apply onEvents_other. exact Hne.
  - torn_down. rewrite removeSession_clients, lookup_delete_ne by exact Hne.
    simpl. apply onEvents_other. exact Hne.
Qed.

Lemma recoverSession_entry (env : recoverEnv) (folder : string) (w : world) :
  (Js.stripPrefix "session-" folder = None →
   recoverSession env folder w = (w, []))
  ∧ ∀ k, Js.stripPrefix "session-" folder = Some k →
         (rec_initializeResult env = Ok tt →
          clients (recoverSession env folder w).1 !! k
          = Some (initializingState (Client k (rec_uid env)) (rec_now env)))
         ∧ ((∃ e, rec_initializeResult env = Throw e) →
            clients (recoverSession env folder w).1 !! k = None
            ∧ FsRemoveSession k (removeDirOk (rec_teardown env))
                ∈ (recoverSession env folder w).2).
Proof.
  split.
  - intros Hnone. unfold recoverSession. rewrite Hnone. reflexivity.
  - intros k Hk. unfold recoverSession. rewrite Hk. split.
    + intros ->. simpl. rewrite updateSessionState_lookup.
      destruct (onEvents _ _ _ _ _ !! k); reflexivity.
    + intros [e ->].
      destruct (removeSession _ _ _) as [w' torn] eqn:E.
      pose proof (f_equal fst E) as E1. pose proof (f_equal snd E) as E2.
      cbn [fst snd] in E1, E2. subst w' torn. cbn [fst snd]. split.
      * rewrite removeSession_clients. apply lookup_delete_eq.
      * apply list_elem_of_further, removeSession_asks_folder.
Qed.

(** X22: the recovery of one folder. A folder whose name does not start
    with [session-] is skipped. For a folder [session-k]: when
    [client.initialize()] returns, identity [k] is registered as
    initializing with the new client and a null pairing code, whatever
    events were handled during the initialization; when it throws,
    identity [k] has no entry and the removal of its session folder has
    been asked for. *)
Theorem recoverSession_spec (env : recoverEnv) (folder : string) (w : world) :
  (Js.stripPrefix "session-" folder = None →
   recoverSession env folder w = (w, []))
  ∧ ∀ k, Js.stripPrefix "session-" folder = Some k →
         (rec_initializeResult env = Ok tt →
          clients (recoverSession env folder w).1 !! k
          = Some (initializingState (Client k (rec_uid env)) (rec_now env)))
         ∧ ((∃ e, rec_initializeResult env = Throw e) →
            clients (recoverSession env folder w).1 !! k = None
            ∧ FsRemoveSession k (removeDirOk (rec_teardown env))
                ∈ (recoverSession env folder w).2).
Proof. exact (recoverSession_entry env folder w). Qed.

Lemma recoverSession_spec_witness :
  let env := RecoverEnv 0 3 (Ok tt) [EvAuthenticated 1; EvReady 2] allOk in
  clients (recoverSession env "session-911" (initial ∅ noPrompts)).1 !! "911"
  = Some (initializingState (Client "911" 0) 3).
Proof.
  intros env.
  destruct (recoverSession_spec env "session-911" (initial ∅ noPrompts))
    as [_ Hsession].
  destruct (Hsession "911" eq_refl) as [Hok _]. apply Hok. reflexivity.
Defined.

Lemma loadExistingSessions_app (l1 l2 : list (string * recoverEnv))
    (w : world) :
  (loadExistingSessions (l1 ++ l2) w).1
  = (loadExistingSessions l2 (loadExistingSessions l1 w).1).1.
Proof.
  revert w. induction l1 as [|[folder env] l1 IH]; intros w; simpl.
  - destruct (loadExistingSessions l2 w). reflexivity.
  - destruct (recoverSession env folder w) as [w1 t1].
    specialize (IH w1).
    destruct (loadExistingSessions (l1 ++ l2) w1) as [w2 t2].
    destruct (loadExistingSessions l1 w1) as [w3 t3]. exact IH.
Qed.

Lemma loadExistingSessions_other (folders : list (string * recoverEnv))
    (j : string) (w : world) :
  Forall (λ fe, Js.stripPrefix "session-" fe.1 ≠ Some j) folders →
  clients (loadExistingSessions folders w).1 !! j = clients w !! j.
Proof.
  revert w. induction folders as [|[folder env] rest IH]; intros w Hall;
    simpl; [reflexivity|].
  apply Forall_cons in Hall as [Hfolder Hrest].
  pose proof (recoverSession_other env folder j w Hfolder) as H1.
  destruct (recoverSession env folder w) as [w1 t1]. simpl in H1.
  specialize (IH w1 Hrest).
  destruct (loadExistingSessions rest w1) as [w2 t2]. simpl in *.
  rewrite IH. exact H1.
Qed.

Lemma deleteSession_other (env : teardownEnv) (mobile j : string)
    (w : world) :
  Js.digitsOnly mobile ≠ j →
  clients (deleteSession env mobile w).1.1 !! j = clients w !! j.
Proof.
  intros Hne. unfold deleteSession. cbv zeta.
  destruct (clients w !! Js.digitsOnly mobile); [|reflexivity].
  torn_down. rewrite removeSession_clients. apply lookup_delete_ne, Hne.
Qed.

Lemma step_other (MAX_SESSIONS : Z) (k : string) (w : world) (o : op) :
  ¬ touches k o → clients (step MAX_SESSIONS w o) !! k = clients w !! k.
Proof.
  intros Hk. destruct o; simpl in *.
  - apply createOrReuseSession_other, Hk.
  - apply loadExistingSessions_other, Forall_Exists_neg, Hk.
  - apply onEvent_other, Hk.
  - rewrite onMessage_clients. reflexivity.
  - rewrite sendMessage_world. reflexivity.
  - apply deleteSession_other, Hk.
  - destruct (setPrompt _ _ _ _ _) as [[st' r]|e]; reflexivity.
  - reflexivity.
Qed.

(** X23: the registry entry of an identity is written by its own
    operations only. Along any run, in any interleaving, the steps that
    are not a create or delete request for identity [k], the recovery of a
    folder [session-k] or a callback of a client of [k] leave the entry of
    [k] as it was: the recovery of other folders, failed or not, and the
    events of other clients do not reach it. The recovery of a listing is
    the recovery of its first folders followed by that of the others, so
    the events arriving between two folders are steps of such a run. *)
Theorem entry_written_by_own_operations (MAX_SESSIONS : Z) (k : string)
    (ops : list op) (w : world) :
  Forall (λ o, ¬ touches k o) ops →
  clients (run MAX_SESSIONS ops w) !! k = clients w !! k
  ∧ ∀ l1 l2, run MAX_SESSIONS (OpLoad (l1 ++ l2) :: ops) w
             = run MAX_SESSIONS (OpLoad l1 :: OpLoad l2 :: ops) w.
Proof.
  intros Hops. split.
  - revert w. induction Hops as [|o ops Ho _ IH]; intros w; [reflexivity|].
    change (run MAX_SESSIONS (o :: ops) w)
      with (run MAX_SESSIONS ops (step MAX_SESSIONS w o)).
    rewrite IH. apply step_other, Ho.
  - intros l1 l2. unfold run. cbn [fold_left step].
    rewrite loadExistingSessions_app. reflexivity.
Qed.

Lemma entry_written_by_own_operations_witness :
  let failing := RecoverEnv 0 1 (Throw "no browser") [] allOk in
  let working := RecoverEnv 1 2 (Ok tt) [] allOk in
  let recovered :=
    run 5 [OpLoad [("session-911", working)];
           OpEvent Recovered "911" (Client "911" 1) (EvReady 3)]
        (initial ∅ noPrompts) in
  let others :=
    [OpLoad [("session-4420", failing); ("notes.txt", failing)];
     OpEvent Recovered "4420" (Client "4420" 0) (EvDisconnected 4);
     OpCreate (pairedWith 2 "ABCD-1234") 5 "+44 20";
     OpDelete allOk "4420"] in
  status <$> clients (run 5 others recovered) !! "911" = Some (Some "ready").
Proof.
  intros failing working recovered others.
  destruct (entry_written_by_own_operations 5 "911" others recovered)
    as [Hkept _].
  - repeat constructor; simpl; try discriminate.
    intros H. apply Exists_cons in H as [H|H]; [discriminate H|].
    apply Exists_cons in H as [H|H]; [discriminate H|].
    apply Exists_nil in H. exact H.
  - rewrite Hkept. reflexivity.
Defined.

(** ** Recipients and the send route *)

Lemma dropDigits_split (s : string) :
  ∃ d, s = d +:+ dropDigits s ∧ allDigits d = true.
Proof.
  induction s as [|c r (d & Hr & Hd)]; [exists EmptyString; done|].
  simpl. destruct (Js.isDigit c) eqn:Hc.
  - exists (String c d). split; [|simpl; rewrite Hc; exact Hd].
    change (String c r = String c (d +:+ dropDigits r)). f_equal. exact Hr.
  - exists EmptyString. done.
Qed.

Lemma dropDigits_app (d t : string) :
  allDigits d = true → dropDigits (d +:+ t) = dropDigits t.
Proof.
  induction d as [|c r IH]; [reflexivity|]. simpl.
  intros [Hc Hr]%andb_true_iff. rewrite Hc. exact (IH Hr).
Qed.

Lemma suffix_pattern (t : string) :
  match t with
  | String "@" (String "c" (String x (String "u" (String "s" EmptyString)))) =>
      negb (isLineTerminator x)
  | _ => false
  end = true →
  ∃ x, t = "@c" +:+ String x "us" ∧ isLineTerminator x = false.
Proof.
  intros H.
  destruct t as [|a t]; [discriminate H|].
  destruct a as [[] [] [] [] [] [] [] []]; try discriminate H.
  destruct t as [|b t]; [discriminate H|].
  destruct b as [[] [] [] [] [] [] [] []]; try discriminate H.
  destruct t as [|x t]; [discriminate H|].
  destruct t as [|u t]; [discriminate H|].
  destruct u as [[] [] [] [] [] [] [] []]; try discriminate H.
  destruct t as [|v t]; [discriminate H|].
  destruct v as [[] [] [] [] [] [] [] []]; try discriminate H.
  destruct t as [|? ?]; [|discriminate H].
  exists x. split; [reflexivity|]. apply negb_true_iff. exact H.
Qed.

(** X24: the recipients [sendMessageSchema] accepts are exactly the strings
    made of one digit or more, then [@c], then any one code unit that is
    not a line terminator, then [us]: the dot of the pattern is not
    escaped, so [@c.us] is one of many endings accepted. *)
Theorem whatsAppId_spec (s : string) :
  whatsAppId s = true ↔
  ∃ d x, s = d +:+ "@c" +:+ String x "us"
         ∧ d ≠ EmptyString
         ∧ allDigits d = true
         ∧ isLineTerminator x = false.
Proof.
  split.
  - unfold whatsAppId. destruct s as [|c r] eqn:Hs; [discriminate|].
    rewrite <- Hs. intros [Hc Hrest]%andb_true_iff.
    destruct (dropDigits_split s) as (d & Hsplit & Hd).
    destruct (suffix_pattern _ Hrest) as (x & Hdrop & Hx).
    rewrite Hdrop in Hsplit.
    exists d, x. split; [exact Hsplit|]. split; [|split; assumption].
    intros ->. rewrite Hs in Hsplit. injection Hsplit as -> _.
    discriminate Hc.
  - intros (d & x & -> & Hne & Hd & Hx). unfold whatsAppId.
    destruct d as [|c r]; [contradiction|].
    change (String c r +:+ "@c" +:+ String x "us")
      with (String c (r +:+ "@c" +:+ String x "us")).
    cbv iota beta.
    change (String c (r +:+ "@c" +:+ String x "us"))
      with (String c r +:+ "@c" +:+ String x "us").
    rewrite (dropDigits_app _ _ Hd). simpl in Hd.
    apply andb_true_iff in Hd as [Hc _]. rewrite Hc. simpl.
    rewrite Hx. reflexivity.
Qed.

Lemma whatsAppId_truthy (to : string) : whatsAppId to = true → Js.truthy to = true.
Proof. destruct to; [discriminate | reflexivity]. Qed.

(** X25: through its route, [sendMessage] never answers its own 400: a
    request that passes the two validations is answered 200, 404 or 500,
    never changes the state, sends at most the one message asked for, and
    is answered 200 only if the session stored under the path parameter
    itself is ready and the transport accepted the message. *)
Theorem postSend_answers (ok : bool) (mobile : string) (b : sendBody)
    (w : world) (r : world * reply * list action) :
  postSend ok mobile b w = Handled r →
  r.1.1 = w
  ∧ (code r.1.2 = 200%nat ∨ code r.1.2 = 404%nat ∨ code r.1.2 = 500%nat)
  ∧ (code r.1.2 = 404%nat → r.2 = [])
  ∧ (code r.1.2 = 200%nat →
     ok = true
     ∧ ∃ s c to text,
         body_to b = Some to ∧ body_message b = Some text
         ∧ clients w !! mobile = Some s
         ∧ status s = Some "ready"
         ∧ client s = Some c
         ∧ r.2 = [ClientSend c to text true]).
Proof.
  unfold postSend, sendMessageSchema.
  destruct (mobileSchema mobile) eqn:Hmobile; [|discriminate].
  destruct (body_to b) as [to|]; [|discriminate].
  destruct (body_message b) as [text|]; [|discriminate].
  destruct (whatsAppId to && Js.truthy text) eqn:Hbody; [|discriminate].
  apply andb_true_iff in Hbody as [Hto Htext].
  apply whatsAppId_truthy in Hto.
  unfold mobileSchema in Hmobile. apply andb_true_iff in Hmobile as [_ Hd].
  intros [= <-]. unfold sendMessage. cbv zeta.
  rewrite Hto, Htext, (allDigits_digitsOnly mobile Hd). simpl.
  destruct (clients w !! mobile) as [s|] eqn:Hs; simpl;
    [|repeat split; eauto; discriminate].
  destruct (client s) as [c|] eqn:Hc; simpl;
    [|repeat split; eauto; discriminate].
  unfold hasStatus. case_bool_decide as Hready; simpl;
    [|repeat split; eauto; discriminate].
  destruct ok; simpl.
  - split; [reflexivity|]. split; [eauto|]. split; [discriminate|].
    intros _. split; [reflexivity|]. exists s, c, to, text. done.
  - split; [reflexivity|]. split; [eauto|]. split; discriminate.
Qed.

Lemma postSend_answers_witness :
  let w := run 10 readyAndChatting (initial ∅ noPrompts) in
  let r := sendMessage true "911" "4420@c.us" "hello" w in
  r.1.1 = w ∧ r.2 = [ClientSend (Client "911" 0) "4420@c.us" "hello" true].
Proof.
  intros w r.
  destruct (postSend_answers true "911"
              (SendBody (Some "4420@c.us") (Some "hello")) w r eq_refl)
    as (Hsame & _ & _ & Hsent).
  split; [exact Hsame|]. reflexivity.
Defined.

(** ** What the readers of the registry report *)

(** X26: the readers of the registry agree. [getPairingCode] serves a code
    exactly when [getSessionStatus] reports that code and it is not empty;
    [listSessions] has one element per entry, and for an identity made of
    digits its element carries what [getSessionStatus] answers for it. *)
Theorem readers_agree (mobile : string) (w : world) :
  (∀ p, getPairingCode mobile w
        = Reply 200 EmptyString (Some (SessionInfo true false (Some p) None))
        ↔ p ≠ EmptyString
          ∧ ∃ i, info (getSessionStatus mobile w) = Some i
                 ∧ info_pairingCode i = Some p)
  ∧ (code (getPairingCode mobile w) = 200%nat
     ∨ code (getPairingCode mobile w) = 404%nat)
  ∧ length (listSessions w) = size (clients w)
  ∧ ∀ k i la, (k, i, la) ∈ listSessions w →
              Js.digitsOnly k = k →
              getSessionStatus k w = Reply 200 EmptyString (Some i).
Proof.
  split; [|split; [|split]].
  - intros p. unfold getPairingCode, getSessionStatus. cbv zeta.
    destruct (clients w !! Js.digitsOnly mobile) as [s|]; simpl.
    + destruct (hasStatus s "pairing"); simpl.
      * destruct (codeOf s) as [q|]; simpl.
        -- destruct q as [|c q]; simpl.
           ++ split; [discriminate|]. intros [Hne (i & [= <-] & Hi)].
              simpl in Hi. congruence.
           ++ split.
              ** intros [= <-]. split; [discriminate|]. eauto.
              ** intros [_ (i & [= <-] & [= <-])]. reflexivity.
        -- split; [discriminate|]. intros [_ (i & [= <-] & Hi)].
           discriminate Hi.
      * split; [discriminate|]. intros [_ (i & [= <-] & Hi)].
        discriminate Hi.
    + split; [discriminate|]. intros [_ (i & [= <-] & Hi)]. discriminate Hi.
  - unfold getPairingCode. cbv zeta.
    destruct (clients w !! Js.digitsOnly mobile) as [s|]; [|eauto].
    destruct (negb _); [eauto|]. destruct (codeOf s) as [q|]; [|eauto].
    destruct (Js.truthy q); eauto.
  - unfold listSessions. rewrite length_fmap. apply length_map_to_list.
  - intros k i la Hin Hk. unfold listSessions in Hin.
    apply list_elem_of_fmap in Hin as ([k' s] & Hview & Hin).
    apply elem_of_map_to_list in Hin. simpl in Hview.
    injection Hview as -> -> ->.
    unfold getSessionStatus. cbv zeta. rewrite Hk, Hin. reflexivity.
Qed.

Lemma readers_agree_witness :
  let w := run 10 [OpCreate (pairedWith 0 "ABCD-1234") 5 "911"]
               (initial ∅ noPrompts) in
  getSessionStatus "911" w
  = Reply 200 EmptyString
          (Some (SessionInfo true false (Some "ABCD-1234") (Some "pairing")))
  ∧ ∃ i, info (getSessionStatus "911" w) = Some i
         ∧ info_pairingCode i = Some "ABCD-1234".
Proof.
  intros w.
  destruct (readers_agree "911" w) as (Hcode & _ & _ & Hlist).
  split.
  - apply (Hlist "911" _ (Some 5)); [|reflexivity].
    unfold listSessions. apply list_elem_of_fmap.
    exists ("911", SessionState (Some (Client "911" 0)) (Some "pairing")
                                (Some (Some "ABCD-1234")) (Some 5) (Some tt)
                                (Some None)).
    split; [reflexivity|]. apply elem_of_map_to_list. reflexivity.
  - apply (Hcode "ABCD-1234"). reflexivity.
Defined.

(** ** Command router: confinement, administration, edge cases *)

Lemma generateAIResponse_other (env : aiEnv) (st : store)
    (files : gmap string histFile) (userMessage mobileNumber other : string) :
  mobileNumber ≠ other →
  (generateAIResponse env st files userMessage mobileNumber).1 !! other
  = files !! other.
Proof.
  intros Hne. unfold generateAIResponse.
  destruct (negb (apiKey env)); [reflexivity|].
  destruct (getPromptByMobile st mobileNumber) as [data|e]; [|reflexivity].
  destruct (negb (Js.truthy (systemPrompt data))); [reflexivity|].
  destruct (generate env _ _ _) as [answer|e]; simpl;
    rewrite ?addMessageToHistory_other by exact Hne; reflexivity.
Qed.

Lemma sendOrFallback_sends (env : routerEnv) (c : clientRef)
    (to text fallback : string) :
  Forall (λ a, ∃ t ok, a = ClientSend c to t ok)
         (sendOrFallback env c to text fallback).
Proof.
  unfold sendOrFallback. destruct (sendOk env to text);
    repeat constructor; eauto.
Qed.

(** X27: one inbound message is confined to its sender and its session:
    the handler never writes the registry; it changes no history file but
    the sender's and no prompt but the owner's, and never the default
    prompt; every message it sends goes through the client it is
    registered on, to the sender; an AI call is for the sender and a prompt
    update for the owner. *)
Theorem onMessage_confined (env : routerEnv) (c : clientRef) (owner : string)
    (msg : inbound) (w : world) :
  let r := onMessage env c owner msg w in
  clients r.1 = clients w
  ∧ (∀ other, fromNumberOf msg ≠ other →
              histories r.1 !! other = histories w !! other)
  ∧ defaultPrompt (prompts r.1) = defaultPrompt (prompts w)
  ∧ (∀ k, k ≠ Js.digitsOnly owner →
          customPrompts (prompts r.1) !! k = customPrompts (prompts w) !! k)
  ∧ Forall (λ a, (∃ t ok, a = ClientSend c (msg_from msg) t ok)
                 ∨ (∃ t, a = SetPromptCall owner t)
                 ∨ (∃ u, a = AiRelayCall u (fromNumberOf msg))) r.2.
Proof.
  cbv zeta. split; [apply onMessage_clients|].
  unfold onMessage. cbv zeta.
  destruct (negb _); [simpl; repeat split; eauto|].
  destruct (_ && _).
  - destruct (Js.truthy _) eqn:Hnew.
    + unfold setPrompt. rewrite Hnew. simpl.
      destruct (promptWriteOk env); simpl.
      * repeat split; try done.
        -- intros k Hk. rewrite lookup_insert_ne; done.
        -- constructor; [eauto|].
           eapply Forall_impl; [apply sendOrFallback_sends|]. eauto.
      * repeat split; try done.
        constructor; [eauto|].
        eapply Forall_impl; [apply sendOrFallback_sends|]. eauto.
    + simpl. repeat split; try done. repeat constructor. eauto.
  - destruct (negb _).
    + pose proof (generateAIResponse_other (ai env) (prompts w) (histories w)
                    (commandOf msg) (fromNumberOf msg)) as Hother.
      destruct (generateAIResponse _ _ _ _ _) as [files' answer]. simpl in *.
      repeat split; try done.
      constructor; [eauto|].
      destruct answer as [response|e].
      * destruct (Js.truthy response); [|constructor].
        eapply Forall_impl; [apply sendOrFallback_sends|]. eauto.
      * repeat constructor. eauto.
    + simpl. repeat split; try done. repeat constructor. eauto.
Qed.

Lemma join_cons_cons (name first : string) (rest : list string) :
  Js.join (name :: first :: rest) = name +:+ " " +:+ Js.join (first :: rest).
Proof. reflexivity. Qed.

(** X28: [.setprompt] from the owner. The new prompt is the command text
    after [setprompt] and one space, spacing kept; when it is not empty
    the handler calls the prompt store for the owner and then sends the
    confirmation, without any AI call or history change; the prompt
    resolved for the owner is the new one when the prompt file was
    written, and the stored prompts are unchanged when the write failed,
    the confirmation being sent all the same. *)
Theorem setprompt_from_owner (env : routerEnv) (c : clientRef)
    (owner : string) (msg : inbound) (w : world) :
  Js.startsWithDot (msg_body msg) = true →
  commandNameOf msg = "setprompt" →
  fromNumberOf msg = owner →
  let newPrompt := Js.join (tail (Js.split " " (commandOf msg))) in
  newPrompt ≠ EmptyString →
  let r := onMessage env c owner msg w in
  commandOf msg = "setprompt " +:+ newPrompt
  ∧ r.2 = SetPromptCall owner newPrompt
            :: sendOrFallback env c (msg_from msg) promptUpdated promptFailed
  ∧ histories r.1 = histories w
  ∧ clients r.1 = clients w
  ∧ (promptWriteOk env = true →
     getPromptByMobile (prompts r.1) owner = Ok (PromptData newPrompt))
  ∧ (promptWriteOk env = false → prompts r.1 = prompts w).
Proof.
  intros Hdot Hname Hfrom newPrompt Hnew. cbv zeta. split.
  - pose proof (join_of_split (commandOf msg)) as Hjoin.
    unfold commandNameOf in Hname. subst newPrompt.
    destruct (Js.split " " (commandOf msg)) as [|name [|first rest]].
    + discriminate Hname.
    + simpl in Hnew. contradiction.
    + subst name. rewrite join_cons_cons in Hjoin. simpl tail.
      rewrite <- Hjoin. reflexivity.
  - unfold onMessage. cbv zeta. rewrite Hdot, Hname, Hfrom. simpl negb.
    rewrite !bool_decide_eq_true_2 by reflexivity. simpl andb.
    cbv iota. fold newPrompt.
    assert (Htruthy : Js.truthy newPrompt = true)
      by (destruct newPrompt; [contradiction | reflexivity]).
    rewrite Htruthy. unfold setPrompt. rewrite Htruthy. simpl.
    destruct (promptWriteOk env); simpl.
    + repeat split; try done. intros _. unfold getPromptByMobile. simpl.
      rewrite lookup_insert_eq. reflexivity.
    + repeat split; done.
Qed.

Lemma setprompt_from_owner_witness :
  let msg := Inbound "911@c.us" ".setprompt Be  terse" in
  let w := World ∅ ∅ noPrompts in
  let r := onMessage (answering "unused") (Client "911" 0) "911" msg w in
  commandOf msg = "setprompt Be  terse"
  ∧ getPromptByMobile (prompts r.1) "911" = Ok (PromptData "Be  terse").
Proof.
  intros msg w r.
  destruct (setprompt_from_owner (answering "unused") (Client "911" 0) "911"
                                 msg w)
    as (Hcommand & _ & _ & _ & Hwritten & _);
    [reflexivity | reflexivity | reflexivity | discriminate |].
  split; [exact Hcommand|]. apply Hwritten. reflexivity.
Defined.

(** X29: what is not a command. A message whose body does not start with
    a dot is ignored: nothing is sent and nothing changes. A dot followed
    by white space only, or by nothing, is answered with the welcome text
    and changes nothing. *)
Theorem onMessage_without_command (env : routerEnv) (c : clientRef)
    (owner : string) (msg : inbound) (w : world) :
  (Js.startsWithDot (msg_body msg) = false →
   onMessage env c owner msg w = (w, []))
  ∧ (Js.startsWithDot (msg_body msg) = true →
     allSpaces (Js.slice1 (msg_body msg)) = true →
     onMessage env c owner msg w
     = (w, [ClientSend c (msg_from msg) welcome
                       (sendOk env (msg_from msg) welcome)])).
Proof.
  split.
  - intros Hdot. unfold onMessage. rewrite Hdot. reflexivity.
  - intros Hdot Hspaces. unfold onMessage. cbv zeta. rewrite Hdot.
    assert (Hcommand : commandOf msg = EmptyString).
    { unfold commandOf, Js.trim. rewrite (trimStart_allSpaces _ Hspaces).
      reflexivity. }
    unfold commandNameOf. rewrite Hcommand. reflexivity.
Qed.

Lemma onMessage_without_command_witness :
  let w := World ∅ ∅ noPrompts in
  onMessage (answering "unused") (Client "911" 0) "911"
            (Inbound "4420@c.us" "hello") w = (w, [])
  ∧ onMessage (answering "unused") (Client "911" 0) "911"
              (Inbound "4420@c.us" ".  ") w
    = (w, [ClientSend (Client "911" 0) "4420@c.us" welcome true]).
Proof.
  intros w. split.
  - apply (onMessage_without_command (answering "unused") (Client "911" 0)
                                     "911" (Inbound "4420@c.us" "hello") w).
    reflexivity.
  - apply (onMessage_without_command (answering "unused") (Client "911" 0)
                                     "911" (Inbound "4420@c.us" ".  ") w);
      reflexivity.
Defined.

Lemma split_before_separator (sep : ascii) (d rest : string) :
  lacks sep d = true →
  Js.split sep (d +:+ String sep rest) = d :: Js.split sep rest.
Proof.
  induction d as [|c r IH]; simpl.
  - intros _. rewrite Ascii.eqb_refl. reflexivity.
  - intros [Hc Hr]%andb_true_iff. apply negb_true_iff in Hc.
    rewrite Hc, (IH Hr). reflexivity.
Qed.

Lemma split_without_separator (sep : ascii) (d : string) :
  lacks sep d = true → Js.split sep d = [d].
Proof.
  induction d as [|c r IH]; simpl; [reflexivity|].
  intros [Hc Hr]%andb_true_iff. apply negb_true_iff in Hc.
  rewrite Hc, (IH Hr). reflexivity.
Qed.

(** X30: the identity of the sender is what precedes the first [@] of
    [msg.from], and the whole of [msg.from] when it has no [@]; for an
    address [digits@c.us] it is the digits, which is what the handler
    compares with the owner of the session. *)
Theorem fromNumberOf_spec (d rest body : string) :
  lacks "@" d = true →
  fromNumberOf (Inbound (d +:+ String "@" rest) body) = d
  ∧ fromNumberOf (Inbound d body) = d
  ∧ (allDigits d = true → fromNumberOf (Inbound (d +:+ "@c.us") body) = d).
Proof.
  intros Hd. unfold fromNumberOf. simpl msg_from.
  rewrite split_before_separator, split_without_separator by exact Hd.
  split; [reflexivity|]. split; [reflexivity|].
  intros _. change (d +:+ "@c.us") with (d +:+ String "@" "c.us").
  rewrite split_before_separator by exact Hd. reflexivity.
Qed.

Lemma fromNumberOf_spec_witness :
  fromNumberOf (Inbound "911@c.us" ".hi") = "911".
Proof.
  destruct (fromNumberOf_spec "911" "c.us" ".hi") as [Hfrom _];
    [reflexivity|].
  exact Hfrom.
Defined.
